(** * invoice_generator: the invoice composer and its totals

    A shallow embedding of [src/invoice_generator.py]:
    [calculate_invoice_totals] and [create_invoice_pdf], over a model of
    the Python values they handle (binary64 floats, strings, datetimes)
    and of the reportlab flowables they build.  Where the library calls
    of the program behave differently from one installation to the
    next ([strftime] of a year below 1000, [sum] of floats), the
    definitions take the [platform] as an argument and the statements
    hold on every platform. *)

From Stdlib Require Import ZArith List String Ascii Bool Lia.
From Stdlib Require Import Floats.SpecFloat Numbers.DecimalString.
Import ListNotations.

Local Open Scope string_scope.
Local Open Scope Z_scope.

(** ** Python floats

    A Python [float] is an IEEE 754 binary64 number: 53 bits of
    precision, infinities at exponent 1024, one NaN. *)
Module PyFloat.

Definition float := spec_float.

Definition prec : Z := 53.
Definition emax : Z := 1024.

Definition nan : float := S754_nan.
Definition inf : float := S754_infinity false.
Definition zero : float := S754_zero false.

(** [x * y], [x + y] and [x - y] on floats; none raises.  [div] is the
    correctly rounded quotient, used for the literals below. *)
Definition mul (x y : float) : float := SFmul prec emax x y.
Definition add (x y : float) : float := SFadd prec emax x y.
Definition sub (x y : float) : float := SFsub prec emax x y.
Definition div (x y : float) : float := SFdiv prec emax x y.

(** [fabs(x)] and [x >= y]; a comparison with NaN is false. *)
Definition abs (x : float) : float := SFabs x.
Definition ge (x y : float) : bool := SFleb y x.

(** [float(n)] for an int that converts without overflow. *)
Definition of_int (n : Z) : float := binary_normalize prec emax n 0 false.

(** The float denoted by the literal [n / 10^k] written in decimal
    ([n < 2^53], [k <= 22]: both operands are exact, so the division
    rounds once, as reading the literal does). *)
Definition lit (n : Z) (k : Z) : float := div (of_int n) (of_int (10 ^ k)).

(** [math.isfinite]. *)
Definition is_finite (x : float) : bool :=
  match x with
  | S754_zero _ | S754_finite _ _ _ => true
  | _ => false
  end.

(** [x == 0]. *)
Definition is_zero (x : float) : bool :=
  match x with S754_zero _ => true | _ => false end.

End PyFloat.

Abbreviation float := PyFloat.float.

(** ** Rendering numbers as text *)
Module PyStr.

(** [str(n)] for a natural number. *)
Definition dec (n : Z) : string := NilZero.string_of_uint (N.to_uint (Z.to_N n)).

Fixpoint repeat0 (n : nat) : string :=
  match n with
  | O => ""
  | S k => String "0" (repeat0 k)
  end.

(** [s.zfill(w)]. *)
Definition zfill (w : nat) (s : string) : string :=
  repeat0 (w - String.length s) ++ s.

Definition sign_text (s : bool) : string := if s then "-" else "".

(** The integer nearest to [n / d] ([d > 0]), a tie going to the even one. *)
Definition div_half_even (n d : Z) : Z :=
  let q := n / d in
  let r := n mod d in
  match 2 * r ?= d with
  | Lt => q
  | Gt => q + 1
  | Eq => if Z.even q then q else q + 1
  end.

(** [|x| * 10^p] rounded to an integer, for a finite non-zero float of
    mantissa [m] and exponent [e]: exact when [e >= 0], otherwise the
    quotient by [2^-e] rounded to nearest, ties to even. *)
Definition scaled (p : nat) (m : positive) (e : Z) : Z :=
  let n := Zpos m * 10 ^ Z.of_nat p in
  if 0 <=? e then n * 2 ^ e else div_half_even n (2 ^ (- e)).

(** The digits of [q / 10^p] with [p] places after the point. *)
Definition fixed (p : nat) (q : Z) : string :=
  match p with
  | O => dec q
  | S _ => dec (q / 10 ^ Z.of_nat p) ++ "." ++ zfill p (dec (q mod 10 ^ Z.of_nat p))
  end.

(** [format(x, '.pf')], what [f"{x:.pf}"] inserts. *)
Definition format_f (p : nat) (x : float) : string :=
  match x with
  | S754_nan => "nan"
  | S754_infinity s => sign_text s ++ "inf"
  | S754_zero s => sign_text s ++ fixed p 0
  | S754_finite s m e => sign_text s ++ fixed p (scaled p m e)
  end.

(** *** [repr] of a float: the shortest decimal that reads back as it *)

(** Integer scales for comparing a decimal with a binary fraction:
    [n * 10^q <= x * 2^e] exactly when
    [n * scale_n q e <= x * scale_x q e]. *)
Definition scale_n (q e : Z) : Z := 10 ^ Z.max q 0 * 2 ^ Z.max (- e) 0.
Definition scale_x (q e : Z) : Z := 2 ^ Z.max e 0 * 10 ^ Z.max (- q) 0.

(** The multiples [n * 10^q] inside the interval of reals that round to
    the float [m * 2^e]; in units of [2^(e-2)] the float is [4m], the
    interval ends at [4m+2] and starts at [4m-2], or at [4m-1] when the
    float is a power of two with a closer neighbour below.  The ends
    belong to the interval when [m] is even.  Returns the member nearest
    to the float, if there is one. *)
Definition candidate (m : positive) (e q : Z) : option Z :=
  let E := e - 2 in
  let a := scale_n q E in
  let b := scale_x q E in
  let v := 4 * Zpos m in
  let low := if (Zpos m =? 2 ^ 52) && (-1074 <? e) then v - 1 else v - 2 in
  let high := v + 2 in
  let closed := Z.even (Zpos m) in
  let n_min :=
    let c := (low * b + a - 1) / a in
    if negb closed && ((low * b) mod a =? 0) then c + 1 else c in
  let n_max :=
    let c := (high * b) / a in
    if negb closed && ((high * b) mod a =? 0) then c - 1 else c in
  if n_min <=? n_max
  then Some (Z.max n_min (Z.min n_max (div_half_even (v * b) a)))
  else None.

(** Tries the exponents [q], [q - 1], ... in turn; the exact expansion
    of the float, which reads back as it, ends the search at the
    latest. *)
Fixpoint shortest (fuel : nat) (m : positive) (e q : Z) : Z * Z :=
  match candidate m e q with
  | Some n => (n, q)
  | None =>
      match fuel with
      | O => (Zpos m * 5 ^ Z.max (- e) 0 * 2 ^ Z.max e 0, Z.min e 0)
      | S k => shortest k m e (q - 1)
      end
  end.

(** The digits [n] and decimal exponent [q] of [repr]: the largest [q]
    for which a multiple of [10^q] reads back as the float. *)
Definition shortest_digits (m : positive) (e : Z) : Z * Z :=
  let top := (Z.log2 (Zpos m) + e + 1) * 30103 / 100000 + 2 in
  shortest (Z.to_nat (top - Z.min e 0)) m e top.

(** The exponent of the scientific notation: a sign and at least two
    digits. *)
Definition exponent_text (x : Z) : string :=
  (if x <? 0 then "-" else "+") ++ zfill 2 (dec (Z.abs x)).

(** The decimal [n * 10^q] laid out as [repr] does.  [decpt] is the
    place of the point after the first digit of [n]: scientific
    notation when [decpt <= -4] or [decpt > 16], otherwise positional,
    with [.0] after an integer. *)
Definition repr_digits (n q : Z) : string :=
  let ds := dec n in
  let k := Z.of_nat (String.length ds) in
  let decpt := k + q in
  if (decpt <=? -4) || (16 <? decpt) then
    String.substring 0 1 ds
    ++ (if 1 <? k then "." ++ String.substring 1 (String.length ds - 1) ds else "")
    ++ "e" ++ exponent_text (decpt - 1)
  else if decpt <=? 0 then
    "0." ++ repeat0 (Z.to_nat (- decpt)) ++ ds
  else if decpt <? k then
    String.substring 0 (Z.to_nat decpt) ds ++ "."
    ++ String.substring (Z.to_nat decpt) (String.length ds - Z.to_nat decpt) ds
  else
    ds ++ repeat0 (Z.to_nat (decpt - k)) ++ ".0".

(** [str(x)] (and [repr(x)]) of a float. *)
Definition str_float (x : float) : string :=
  match x with
  | S754_nan => "nan"
  | S754_infinity s => sign_text s ++ "inf"
  | S754_zero s => sign_text s ++ "0.0"
  | S754_finite s m e =>
      let '(n, q) := shortest_digits m e in
      sign_text s ++ repr_digits n q
  end.

End PyStr.

(** ** The interpreter underneath

    Two behaviours of the library calls this program makes differ from
    one installation of Python to the next, and the source fixes
    neither:
    - [strftime('%Y')] is handed to the C library: it writes the year
      on four digits, zero-padded, where the C library pads (and in the
      interpreters that pad by themselves), and with no padding on
      glibc, where the year 999 is written [999];
    - [sum] of floats adds them one after the other up to CPython 3.11,
      and carries a compensation term (Neumaier's) from CPython 3.12.
    Every definition that reaches one of the two calls takes the
    platform as its first argument. *)
Record platform := {
  pads_year : bool;
  compensated_sum : bool
}.

(** CPython 3.11 on glibc. *)
Definition glibc_311 : platform :=
  {| pads_year := false; compensated_sum := false |}.

(** CPython 3.12 over a C library that pads the year. *)
Definition padded_312 : platform :=
  {| pads_year := true; compensated_sum := true |}.

(** ** datetime objects *)
Module PyDatetime.

(** A [datetime.datetime]; the constructor of the Python class keeps
    [1 <= year <= 9999], [1 <= month <= 12] and [day] within the month. *)
Record datetime := {
  year : Z;
  month : Z;
  day : Z;
  hour : Z;
  minute : Z;
  second : Z;
  microsecond : Z
}.


(** One directive of a [strftime] format: [%Y] the year, on four
    digits where the platform pads it and as the plain decimal number
    where it does not; [%m], [%d], [%H], [%M] and [%S] on two digits;
    [%%] a percent sign.  Directives this program does not use are left
    as they stand. *)
Definition directive (py : platform) (dt : datetime) (c : ascii) : string :=
  if Ascii.eqb c "Y" then
    if pads_year py then PyStr.zfill 4 (PyStr.dec (year dt))
    else PyStr.dec (year dt)
  else if Ascii.eqb c "m" then PyStr.zfill 2 (PyStr.dec (month dt))
  else if Ascii.eqb c "d" then PyStr.zfill 2 (PyStr.dec (day dt))
  else if Ascii.eqb c "H" then PyStr.zfill 2 (PyStr.dec (hour dt))
  else if Ascii.eqb c "M" then PyStr.zfill 2 (PyStr.dec (minute dt))
  else if Ascii.eqb c "S" then PyStr.zfill 2 (PyStr.dec (second dt))
  else if Ascii.eqb c "%" then "%"
  else String "%" (String c "").

(** [dt.strftime(fmt)]. *)
Fixpoint strftime (py : platform) (dt : datetime) (fmt : string) : string :=
  match fmt with
  | EmptyString => ""
  | String c rest =>
      if Ascii.eqb c "%" then
        match rest with
        | EmptyString => "%"
        | String c' rest' => directive py dt c' ++ strftime py dt rest'
        end
      else String c (strftime py dt rest)
  end.

End PyDatetime.

Abbreviation datetime := PyDatetime.datetime.

(** ** Python values and exceptions *)

(** The objects a cell of a table may hold.  Text fields hold [str];
    the two date fields hold whatever the caller stored. *)
Inductive value :=
| VNone
| VStr (s : string)
| VInt (n : Z)
| VFloat (x : float)
| VDatetime (dt : datetime).

(** [isinstance(v, datetime)]. *)
Definition isinstance_datetime (v : value) : bool :=
  match v with VDatetime _ => true | _ => false end.

(** [isinstance(v, str)]. *)
Definition isinstance_str (v : value) : bool :=
  match v with VStr _ => true | _ => false end.

(** The exception a subscript [d[key]] raises on a dict without [key]. *)
Inductive exception :=
| KeyError (key : string).

Inductive result (A : Type) :=
| Ok (a : A)
| Raise (e : exception).

Arguments Ok {A} a.
Arguments Raise {A} e.

Definition bind {A B : Type} (r : result A) (k : A -> result B) : result B :=
  match r with
  | Ok a => k a
  | Raise e => Raise e
  end.

Notation "x <- r ;; k" := (bind r (fun x => k))
  (at level 61, r at next level, right associativity).

(** Runs [f] on the elements from left to right, stopping at the first
    exception: the body of a [for] loop that appends one result per turn. *)
Fixpoint for_each {A B : Type} (f : A -> result B) (l : list A) : result (list B) :=
  match l with
  | [] => Ok []
  | x :: rest =>
      y <- f x ;;
      ys <- for_each f rest ;;
      Ok (y :: ys)
  end.

(** [d[key]] on a dict whose entry for [key], if any, is [field]. *)
Definition getitem {A : Type} (key : string) (field : option A) : result A :=
  match field with
  | Some v => Ok v
  | None => Raise (KeyError key)
  end.

(** ** Numbers of the totals

    Quantities, prices and the tax rate are floats, as
    [float(input(...))] makes them.  [sum] starts from the int [0] and
    returns it untouched for an empty iterable, so a subtotal is that
    int or a float. *)
Inductive num :=
| PyInt0
| PyFloat (x : float).

(** [float(n)]. *)
Definition to_float (n : num) : float :=
  match n with
  | PyInt0 => PyFloat.zero
  | PyFloat x => x
  end.

(** [n + x], [n * x] with [x] a float: an int operand is converted first. *)
Definition num_add (n : num) (x : float) : float := PyFloat.add (to_float n) x.
Definition num_mul (n : num) (x : float) : float := PyFloat.mul (to_float n) x.

(** [sum(xs)] as the language reference defines it and CPython up to
    3.11 computes it: the items added to the start value [0], left to
    right. *)
Definition plain_sum (xs : list float) : num :=
  fold_left (fun acc x => PyFloat (num_add acc x)) xs PyInt0.

(** One turn of the float loop of CPython 3.12's [sum], on the running
    sum [f] and the compensation [c]:
    [t = f + x; if fabs(f) >= fabs(x): c += (f - t) + x
     else: c += (x - t) + f; f = t]. *)
Definition compensate (fc : float * float) (x : float) : float * float :=
  let '(f, c) := fc in
  let t := PyFloat.add f x in
  let c :=
    if PyFloat.ge (PyFloat.abs f) (PyFloat.abs x)
    then PyFloat.add c (PyFloat.add (PyFloat.sub f t) x)
    else PyFloat.add c (PyFloat.add (PyFloat.sub x t) f) in
  (t, c).

(** The end of that loop: [if c and isfinite(c): f += c]. *)
Definition compensated (fc : float * float) : float :=
  let '(f, c) := fc in
  if negb (PyFloat.is_zero c) && PyFloat.is_finite c then PyFloat.add f c else f.

(** [sum(xs)] from CPython 3.12 on: the first float is added to the
    int [0], which makes the result a float and starts the loop above
    on the floats that follow, with a compensation of [0.0]. *)
Definition compensated_sum_of (xs : list float) : num :=
  match xs with
  | [] => PyInt0
  | x :: xs =>
      PyFloat (compensated (fold_left compensate xs (num_add PyInt0 x, PyFloat.zero)))
  end.

(** [sum(xs)] on the platform. *)
Definition py_sum (py : platform) (xs : list float) : num :=
  if compensated_sum py then compensated_sum_of xs else plain_sum xs.

(** [f"{n:.2f}"] and the like: an int is formatted as the float it converts to. *)
Definition num_format_f (p : nat) (n : num) : string := PyStr.format_f p (to_float n).

(** ** reportlab flowables

    The story handed to [doc.build] is a list of flowables; each is kept
    as the constructor call that made it. *)
Module Reportlab.

(** The entries of [getSampleStyleSheet()] the program uses. *)
Inductive style := h1 | h2 | h3 | Normal.

Inductive color :=
| HexColor (code : string)
| black
| white
| grey
| red.

(** [reportlab.lib.units.inch]. *)
Definition inch : float := PyFloat.of_int 72.

(** [reportlab.lib.pagesizes.letter]. *)
Definition letter : float * float :=
  (PyFloat.mul (PyFloat.lit 85 1) inch, PyFloat.mul (PyFloat.of_int 11) inch).

(** A command of a [TableStyle]: its name, the first and last cell
    (column, row) it covers, its arguments. *)
Inductive command :=
| ALIGN (start stop : Z * Z) (side : string)
| FONTNAME (start stop : Z * Z) (font : string)
| BOTTOMPADDING (start stop : Z * Z) (points : Z)
| BACKGROUND (start stop : Z * Z) (c : color)
| TEXTCOLOR (start stop : Z * Z) (c : color)
| GRID (start stop : Z * Z) (width : float) (c : color)
| BOX (start stop : Z * Z) (width : float) (c : color).

Inductive flowable :=
| Paragraph (text : string) (st : style)
| Spacer (width : Z) (height : float)
| Table (data : list (list value)) (colWidths : list float) (cmds : list command).

(** A paragraph in one of the heading styles. *)
Definition is_heading (b : flowable) : bool :=
  match b with
  | Paragraph _ Normal => false
  | Paragraph _ _ => true
  | _ => false
  end.

Definition is_table (b : flowable) : bool :=
  match b with Table _ _ _ => true | _ => false end.

Definition table_data (b : flowable) : list (list value) :=
  match b with Table data _ _ => data | _ => [] end.

End Reportlab.

Import Reportlab.

(** ** The invoice dict

    [invoice_data] is a dict with a fixed set of keys; a key that is
    absent is [None] here, a key that is present holds a value of the
    type the docstring of [create_invoice_pdf] gives it. *)
Record Item := {
  description : option string;
  quantity : option float;
  unit_price : option float
}.

Record InvoiceData := {
  invoice_number : option string;
  invoice_date : option value;
  due_date : option value;
  bill_to_name : option string;
  bill_to_address : option (list string);
  items : option (list Item);
  subtotal : option num;
  tax_rate : option float;
  tax_amount : option float;
  total_amount : option float;
  company_name : option string;
  company_address : option (list string);
  company_phone : option string;
  company_email : option string;
  payment_terms : option string
}.

(** ** calculate_invoice_totals *)

(** [item['quantity'] * item['unit_price']], the element the generator
    yields for [item]. *)
Definition item_amount (item : Item) : result float :=
  quantity <- getitem "quantity" (quantity item) ;;
  unit_price <- getitem "unit_price" (unit_price item) ;;
  Ok (PyFloat.mul quantity unit_price).

Definition calculate_invoice_totals (py : platform) (items : list Item) (tax_rate : float)
  : result (num * float * float) :=
  amounts <- for_each item_amount items ;;
  let subtotal := py_sum py amounts in
  let tax_amount := num_mul subtotal tax_rate in
  let total_amount := num_add subtotal tax_amount in
  Ok (subtotal, tax_amount, total_amount).

(** ** create_invoice_pdf *)

(** [f"${x:.2f}"]. *)
Definition currency (x : float) : string := "$" ++ PyStr.format_f 2 x.

(** [v.strftime('%Y-%m-%d') if isinstance(v, datetime) else v]. *)
Definition date_cell (py : platform) (v : value) : value :=
  match v with
  | VDatetime dt => VStr (PyDatetime.strftime py dt "%Y-%m-%d")
  | _ => v
  end.

(** The row one turn of the items loop appends to [table_data]. *)
Definition item_row (item : Item) : result (list value) :=
  quantity <- getitem "quantity" (quantity item) ;;
  unit_price <- getitem "unit_price" (unit_price item) ;;
  let amount := PyFloat.mul quantity unit_price in
  description <- getitem "description" (description item) ;;
  Ok [ VStr description;
       VStr (PyStr.str_float quantity);
       VStr (currency unit_price);
       VStr (currency amount) ].

Definition inches (n k : Z) : float := PyFloat.mul (PyFloat.lit n k) inch.

Definition invoice_details_style : list command :=
  [ ALIGN (0, 0) (-1, -1) "LEFT";
    FONTNAME (0, 0) (-1, -1) "Helvetica-Bold";
    BOTTOMPADDING (0, 0) (-1, -1) 6 ].

Definition items_style : list command :=
  [ BACKGROUND (0, 0) (-1, 0) (HexColor "#F2F2F2");
    TEXTCOLOR (0, 0) (-1, 0) black;
    ALIGN (0, 0) (-1, -1) "LEFT";
    ALIGN (1, 0) (-1, -1) "RIGHT";
    FONTNAME (0, 0) (-1, 0) "Helvetica-Bold";
    BOTTOMPADDING (0, 0) (-1, 0) 12;
    BACKGROUND (0, 1) (-1, -1) white;
    GRID (0, 0) (-1, -1) (PyFloat.lit 5 1) grey;
    BOX (0, 0) (-1, -1) (PyFloat.lit 5 1) black ].

Definition totals_style : list command :=
  [ ALIGN (0, 0) (-1, -1) "RIGHT";
    FONTNAME (0, 0) (0, -1) "Helvetica-Bold";
    FONTNAME (1, -1) (1, -1) "Helvetica-Bold";
    TEXTCOLOR (1, -1) (1, -1) red;
    BOTTOMPADDING (0, 0) (-1, -1) 6 ].

(** The story [create_invoice_pdf] has built when it reaches
    [doc.build]: the appends of its sections 1 to 8, in order. *)
Definition build_story (py : platform)
    (invoice_data : InvoiceData) : result (list flowable) :=
  let story := @nil flowable in
  (* 1. Company Header *)
  company_name <- getitem "company_name" (company_name invoice_data) ;;
  let story := (story ++ [Paragraph company_name h1])%list in
  company_address <- getitem "company_address" (company_address invoice_data) ;;
  let story := (story ++ map (fun line => Paragraph line Normal) company_address)%list in
  company_phone <- getitem "company_phone" (company_phone invoice_data) ;;
  let story := (story ++ [Paragraph ("Phone: " ++ company_phone) Normal])%list in
  company_email <- getitem "company_email" (company_email invoice_data) ;;
  let story := (story ++ [Paragraph ("Email: " ++ company_email) Normal])%list in
  let story := (story ++ [Spacer 1 (inches 2 1)])%list in
  (* 2. Invoice Title *)
  let story := (story ++ [Paragraph "INVOICE" h2])%list in
  let story := (story ++ [Spacer 1 (inches 1 1)])%list in
  (* 3. Invoice Details (Number, Date, Due Date) *)
  invoice_number <- getitem "invoice_number" (invoice_number invoice_data) ;;
  invoice_date <- getitem "invoice_date" (invoice_date invoice_data) ;;
  due_date <- getitem "due_date" (due_date invoice_data) ;;
  let invoice_details_data :=
    [ [VStr "Invoice #:"; VStr invoice_number];
      [VStr "Invoice Date:"; date_cell py invoice_date];
      [VStr "Due Date:"; date_cell py due_date] ] in
  let invoice_details_table :=
    Table invoice_details_data [inches 2 0; inches 3 0] invoice_details_style in
  let story := (story ++ [invoice_details_table])%list in
  let story := (story ++ [Spacer 1 (inches 2 1)])%list in
  (* 4. Bill To Section *)
  let story := (story ++ [Paragraph "BILL TO:" h3])%list in
  bill_to_name <- getitem "bill_to_name" (bill_to_name invoice_data) ;;
  let story := (story ++ [Paragraph bill_to_name Normal])%list in
  bill_to_address <- getitem "bill_to_address" (bill_to_address invoice_data) ;;
  let story := (story ++ map (fun line => Paragraph line Normal) bill_to_address)%list in
  let story := (story ++ [Spacer 1 (inches 2 1)])%list in
  (* 5. Items Table *)
  let table_data :=
    [ [VStr "Description"; VStr "Quantity"; VStr "Unit Price"; VStr "Amount"] ] in
  items <- getitem "items" (items invoice_data) ;;
  rows <- for_each item_row items ;;
  let table_data := (table_data ++ rows)%list in
  let table :=
    Table table_data [inches 3 0; inches 1 0; inches 15 1; inches 15 1] items_style in
  let story := (story ++ [table])%list in
  let story := (story ++ [Spacer 1 (inches 2 1)])%list in
  (* 6. Totals *)
  subtotal <- getitem "subtotal" (subtotal invoice_data) ;;
  tax_rate <- getitem "tax_rate" (tax_rate invoice_data) ;;
  tax_amount <- getitem "tax_amount" (tax_amount invoice_data) ;;
  total_amount <- getitem "total_amount" (total_amount invoice_data) ;;
  let totals_data :=
    [ [VStr "Subtotal:"; VStr ("$" ++ num_format_f 2 subtotal)];
      [VStr ("Tax (" ++ PyStr.format_f 0 (PyFloat.mul tax_rate (PyFloat.of_int 100)) ++ "%):");
       VStr (currency tax_amount)];
      [VStr "TOTAL DUE:"; VStr (currency total_amount)] ] in
  let totals_table := Table totals_data [inches 55 1; inches 2 0] totals_style in
  let story := (story ++ [totals_table])%list in
  let story := (story ++ [Spacer 1 (inches 2 1)])%list in
  (* 7. Payment Terms *)
  let story := (story ++ [Paragraph "Payment Terms:" h3])%list in
  payment_terms <- getitem "payment_terms" (payment_terms invoice_data) ;;
  let story := (story ++ [Paragraph payment_terms Normal])%list in
  let story := (story ++ [Spacer 1 (inches 5 1)])%list in
  (* 8. Footer/Thank You *)
  let story := (story ++ [Paragraph "Thank you for your business!" h3])%list in
  Ok story.

(** What a call that returns has done: the document built and the line
    printed.

    reportlab itself is outside this model.  In the program
    [Paragraph] parses its text as markup and [doc.build] lays the
    story out and writes the file, and either may raise (a text that is
    not well-formed markup, a file name that cannot be opened); the
    model goes on as if they did not.  So a run of the program that
    returns is a run of the model that returns, with the values given
    here, and a [KeyError] of the model is the one the program raises
    unless reportlab has raised before; that the model returns does not
    say that the program does. *)
Record Built := {
  filename : string;
  pagesize : float * float;
  story : list flowable;
  printed : string
}.

Definition create_invoice_pdf (py : platform)
    (invoice_data : InvoiceData) (output_filename : string)
  : result Built :=
  story <- build_story py invoice_data ;;
  Ok {| filename := output_filename;
        pagesize := letter;
        story := story;
        printed := "Invoice '" ++ output_filename ++ "' generated successfully!" |}.

(** * Vocabulary of the statements *)

(** ** Complete records

    An invoice with every key present, and the dict that holds it. *)
Record Line := {
  line_description : string;
  line_quantity : float;
  line_unit_price : float
}.

Record Invoice := {
  inv_invoice_number : string;
  inv_invoice_date : value;
  inv_due_date : value;
  inv_bill_to_name : string;
  inv_bill_to_address : list string;
  inv_items : list Line;
  inv_subtotal : num;
  inv_tax_rate : float;
  inv_tax_amount : float;
  inv_total_amount : float;
  inv_company_name : string;
  inv_company_address : list string;
  inv_company_phone : string;
  inv_company_email : string;
  inv_payment_terms : string
}.

Definition item_of_line (l : Line) : Item :=
  {| description := Some (line_description l);
     quantity := Some (line_quantity l);
     unit_price := Some (line_unit_price l) |}.

Definition dict_of_invoice (inv : Invoice) : InvoiceData :=
  {| invoice_number := Some (inv_invoice_number inv);
     invoice_date := Some (inv_invoice_date inv);
     due_date := Some (inv_due_date inv);
     bill_to_name := Some (inv_bill_to_name inv);
     bill_to_address := Some (inv_bill_to_address inv);
     items := Some (map item_of_line (inv_items inv));
     subtotal := Some (inv_subtotal inv);
     tax_rate := Some (inv_tax_rate inv);
     tax_amount := Some (inv_tax_amount inv);
     total_amount := Some (inv_total_amount inv);
     company_name := Some (inv_company_name inv);
     company_address := Some (inv_company_address inv);
     company_phone := Some (inv_company_phone inv);
     company_email := Some (inv_company_email inv);
     payment_terms := Some (inv_payment_terms inv) |}.

(** [inv] with [lines] for items. *)
Definition with_items (inv : Invoice) (lines : list Line) : Invoice :=
  {| inv_invoice_number := inv_invoice_number inv;
     inv_invoice_date := inv_invoice_date inv;
     inv_due_date := inv_due_date inv;
     inv_bill_to_name := inv_bill_to_name inv;
     inv_bill_to_address := inv_bill_to_address inv;
     inv_items := lines;
     inv_subtotal := inv_subtotal inv;
     inv_tax_rate := inv_tax_rate inv;
     inv_tax_amount := inv_tax_amount inv;
     inv_total_amount := inv_total_amount inv;
     inv_company_name := inv_company_name inv;
     inv_company_address := inv_company_address inv;
     inv_company_phone := inv_company_phone inv;
     inv_company_email := inv_company_email inv;
     inv_payment_terms := inv_payment_terms inv |}.

(** ** Reading a story *)

(** The data of the tables of a story, in story order. *)
Definition tables (story : list flowable) : list (list (list value)) :=
  map table_data (filter is_table story).

(** The cell at row [r], column [c] of table data. *)
Definition cell (data : list (list value)) (r c : nat) : option value :=
  match nth_error data r with
  | Some row => nth_error row c
  | None => None
  end.

Definition items_header : list value :=
  [VStr "Description"; VStr "Quantity"; VStr "Unit Price"; VStr "Amount"].

(** The row of the items table that shows the line [l]. *)
Definition line_row (l : Line) : list value :=
  [ VStr (line_description l);
    VStr (PyStr.str_float (line_quantity l));
    VStr (currency (line_unit_price l));
    VStr (currency (PyFloat.mul (line_quantity l) (line_unit_price l))) ].






(** ** Totals *)

(** [a] is the amount of the line [item]: both numbers are there and
    [a] is their float product. *)
Definition line_amount (item : Item) (a : float) : Prop :=
  exists q p,
    quantity item = Some q /\ unit_price item = Some p /\ a = PyFloat.mul q p.

(** [s] is what adding the terms one after the other, first to last,
    to the start value [0] leaves. *)
Inductive running_sum : list float -> num -> Prop :=
| running_sum_nil : running_sum [] PyInt0
| running_sum_snoc xs s x :
    running_sum xs s -> running_sum (xs ++ [x]) (PyFloat (num_add s x)).

(** [fc] is the running sum and the compensation that a compensated
    [sum] holds once it has taken the terms one after the other, first
    to last: the first term is added to the start value [0] with no
    compensation, each later one goes through [compensate]. *)
Inductive compensated_running : list float -> float * float -> Prop :=
| compensated_running_first x :
    compensated_running [x] (num_add PyInt0 x, PyFloat.zero)
| compensated_running_snoc xs fc x :
    compensated_running xs fc -> compensated_running (xs ++ [x]) (compensate fc x).

(** [s] is the sum of the terms [xs], taken in list order, as [sum]
    computes it on the platform: the plain running sum where [sum] does
    not compensate; where it does, the int [0] of no term, and else the
    running sum with its compensation added at the end. *)
Inductive summed (py : platform) : list float -> num -> Prop :=
| summed_plain xs s :
    compensated_sum py = false -> running_sum xs s -> summed py xs s
| summed_none :
    compensated_sum py = true -> summed py [] PyInt0
| summed_compensated xs fc :
    compensated_sum py = true -> compensated_running xs fc ->
    summed py xs (PyFloat (compensated fc)).

(** Some number of the line is infinite or NaN. *)
Definition item_not_finite (item : Item) : bool :=
  match quantity item, unit_price item with
  | Some q, Some p => negb (PyFloat.is_finite q) || negb (PyFloat.is_finite p)
  | _, _ => false
  end.

(** ** Rounding

    A finite non-zero float of mantissa [m] and exponent [e] is worth
    [m * 2^e]; scaled by [10^p] it is the fraction
    [scaled_num p m e / scaled_den e]. *)
Definition scaled_num (p : nat) (m : positive) (e : Z) : Z :=
  Zpos m * 10 ^ Z.of_nat p * 2 ^ Z.max e 0.

Definition scaled_den (e : Z) : Z := 2 ^ Z.max (- e) 0.

(** The scaled value lies half way between two integers. *)
Definition is_tie (p : nat) (m : positive) (e : Z) : bool :=
  2 * (scaled_num p m e mod scaled_den e) =? scaled_den e.

(** [q] is an integer nearest to [n / d]. *)
Definition nearest (n d q : Z) : Prop := 2 * Z.abs (q * d - n) <= d.

(** Half-up rounding of [n / d], as the specification words it: a tie
    goes away from zero. *)
Definition round_half_up (n d : Z) : Z := (2 * n + d) / (2 * d).

(** The currency text the specification describes: [$], then the value
    rounded half-up to two places. *)
Definition currency_half_up (x : float) : string :=
  match x with
  | S754_finite s m e =>
      "$" ++ PyStr.sign_text s
      ++ PyStr.fixed 2 (round_half_up (scaled_num 2 m e) (scaled_den e))
  | _ => currency x
  end.

(** ** Order of the subscripts

    The keys [create_invoice_pdf] reads, in the order it first reads
    them, each with whether the dict has it.  The keys of an item are
    read during the turn of the loop for that item. *)
Definition present {A : Type} (field : option A) : bool :=
  match field with Some _ => true | None => false end.

Definition item_accesses (item : Item) : list (string * bool) :=
  [ ("quantity", present (quantity item));
    ("unit_price", present (unit_price item));
    ("description", present (description item)) ].

Definition accesses (d : InvoiceData) : list (string * bool) :=
  [ ("company_name", present (company_name d));
    ("company_address", present (company_address d));
    ("company_phone", present (company_phone d));
    ("company_email", present (company_email d));
    ("invoice_number", present (invoice_number d));
    ("invoice_date", present (invoice_date d));
    ("due_date", present (due_date d));
    ("bill_to_name", present (bill_to_name d));
    ("bill_to_address", present (bill_to_address d));
    ("items", present (items d)) ]
  ++ flat_map item_accesses (match items d with Some l => l | None => [] end)
  ++ [ ("subtotal", present (subtotal d));
       ("tax_rate", present (tax_rate d));
       ("tax_amount", present (tax_amount d));
       ("total_amount", present (total_amount d));
       ("payment_terms", present (payment_terms d)) ].

(** The first key read that the dict does not have. *)
Definition first_absent (d : InvoiceData) : option string :=
  option_map fst (find (fun a => negb (snd a)) (accesses d)).

(** The story of a call, when it returns. *)
Definition story_of (r : result Built) : result (list flowable) :=
  b <- r ;; Ok (story b).

(** ** The story of a complete invoice

    The eight sections in document order: company header, title,
    details table, bill-to block, items table, totals table, payment
    terms, footer. *)
Definition address_lines (lines : list string) : list flowable :=
  map (fun line => Paragraph line Normal) lines.

Definition details_data (py : platform) (inv : Invoice) : list (list value) :=
  [ [VStr "Invoice #:"; VStr (inv_invoice_number inv)];
    [VStr "Invoice Date:"; date_cell py (inv_invoice_date inv)];
    [VStr "Due Date:"; date_cell py (inv_due_date inv)] ].

Definition items_data (inv : Invoice) : list (list value) :=
  items_header :: map line_row (inv_items inv).

Definition tax_label (rate : float) : string :=
  "Tax (" ++ PyStr.format_f 0 (PyFloat.mul rate (PyFloat.of_int 100)) ++ "%):".

Definition totals_data (inv : Invoice) : list (list value) :=
  [ [VStr "Subtotal:"; VStr (currency (to_float (inv_subtotal inv)))];
    [VStr (tax_label (inv_tax_rate inv)); VStr (currency (inv_tax_amount inv))];
    [VStr "TOTAL DUE:"; VStr (currency (inv_total_amount inv))] ].

Definition composed (py : platform) (inv : Invoice) : list flowable :=
  (Paragraph (inv_company_name inv) h1
   :: address_lines (inv_company_address inv)
   ++ [ Paragraph ("Phone: " ++ inv_company_phone inv) Normal;
        Paragraph ("Email: " ++ inv_company_email inv) Normal;
        Spacer 1 (inches 2 1);
        Paragraph "INVOICE" h2;
        Spacer 1 (inches 1 1);
        Table (details_data py inv) [inches 2 0; inches 3 0] invoice_details_style;
        Spacer 1 (inches 2 1);
        Paragraph "BILL TO:" h3;
        Paragraph (inv_bill_to_name inv) Normal ]
   ++ address_lines (inv_bill_to_address inv)
   ++ [ Spacer 1 (inches 2 1);
        Table (items_data inv)
          [inches 3 0; inches 1 0; inches 15 1; inches 15 1] items_style;
        Spacer 1 (inches 2 1);
        Table (totals_data inv) [inches 55 1; inches 2 0] totals_style;
        Spacer 1 (inches 2 1);
        Paragraph "Payment Terms:" h3;
        Paragraph (inv_payment_terms inv) Normal;
        Spacer 1 (inches 5 1);
        Paragraph "Thank you for your business!" h3 ])%list.

(** ** Sample inputs *)

(** The invoice of the worked scenario: two widgets at 9.99, one
    service at 50.00, tax rate 0.08. *)
Definition widget : Line :=
  {| line_description := "Widget";
     line_quantity := PyFloat.lit 2 0;
     line_unit_price := PyFloat.lit 999 2 |}.

Definition service : Line :=
  {| line_description := "Service";
     line_quantity := PyFloat.lit 1 0;
     line_unit_price := PyFloat.lit 5000 2 |}.

Definition march_15 : datetime :=
  {| PyDatetime.year := 2024; PyDatetime.month := 3; PyDatetime.day := 15;
     PyDatetime.hour := 0; PyDatetime.minute := 0; PyDatetime.second := 0;
     PyDatetime.microsecond := 0 |}.

Definition sample_invoice : Invoice :=
  {| inv_invoice_number := "INV-001";
     inv_invoice_date := VDatetime march_15;
     inv_due_date := VStr "2024-04-14";
     inv_bill_to_name := "Client";
     inv_bill_to_address := ["1 High Street"; "Springfield"];
     inv_items := [widget; service];
     inv_subtotal := PyFloat (PyFloat.lit 6998 2);
     inv_tax_rate := PyFloat.lit 8 2;
     inv_tax_amount := PyFloat.lit 55984 4;
     inv_total_amount := PyFloat.lit 755784 4;
     inv_company_name := "Company";
     inv_company_address := ["2 Main Road"];
     inv_company_phone := "555-0100";
     inv_company_email := "billing@example.com";
     inv_payment_terms := "Net 30" |}.



(** An item whose quantity is NaN, as [float("nan")] reads it. *)
Definition nan_widget : Item :=
  {| description := Some "Widget";
     quantity := Some PyFloat.nan;
     unit_price := Some (PyFloat.lit 999 2) |}.

(** The sample invoice with [None] for invoice date and a number for
    due date. *)
Definition undated_invoice : Invoice :=
  {| inv_invoice_number := "INV-001";
     inv_invoice_date := VNone;
     inv_due_date := VFloat (PyFloat.lit 20240414 0);
     inv_bill_to_name := "Client";
     inv_bill_to_address := ["1 High Street"; "Springfield"];
     inv_items := [widget; service];
     inv_subtotal := PyFloat (PyFloat.lit 6998 2);
     inv_tax_rate := PyFloat.lit 8 2;
     inv_tax_amount := PyFloat.lit 55984 4;
     inv_total_amount := PyFloat.lit 755784 4;
     inv_company_name := "Company";
     inv_company_address := ["2 Main Road"];
     inv_company_phone := "555-0100";
     inv_company_email := "billing@example.com";
     inv_payment_terms := "Net 30" |}.

(** The sample dict without its [tax_rate] and [payment_terms]. *)
Definition untaxed_dict : InvoiceData :=
  {| invoice_number := Some "INV-001";
     invoice_date := Some (VDatetime march_15);
     due_date := Some (VStr "2024-04-14");
     bill_to_name := Some "Client";
     bill_to_address := Some ["1 High Street"; "Springfield"];
     items := Some (map item_of_line [widget; service]);
     subtotal := Some (PyFloat (PyFloat.lit 6998 2));
     tax_rate := None;
     tax_amount := Some (PyFloat.lit 55984 4);
     total_amount := Some (PyFloat.lit 755784 4);
     company_name := Some "Company";
     company_address := Some ["2 Main Road"];
     company_phone := Some "555-0100";
     company_email := Some "billing@example.com";
     payment_terms := None |}.

(** * The prompt sequence

    [get_invoice_data_from_user] and [main], over a model of the
    console: the lines still to be read and the text written so far.
    A character of a string is a code point below 256. *)

(** ** Text methods *)
Module PyText.

Definition code (c : ascii) : Z := Z.of_N (N_of_ascii c).

Definition chr (n : Z) : ascii := ascii_of_N (Z.to_N n).

Definition is_digit (c : ascii) : bool := (48 <=? code c) && (code c <=? 57).

(** [c.lower()] for one character: the letters A to Z and the capital
    letters of Latin-1 move 32 places up. *)
Definition lower_char (c : ascii) : ascii :=
  if ((65 <=? code c) && (code c <=? 90))
     || ((192 <=? code c) && (code c <=? 222) && negb (code c =? 215))
  then chr (code c + 32)
  else c.

(** The line feed [print] ends its text with. *)
Definition NL : string := String (chr 10) "".

(** [s.lower()]. *)
Fixpoint lower (s : string) : string :=
  match s with
  | EmptyString => ""
  | String c rest => String (lower_char c) (lower rest)
  end.

End PyText.

(** ** float(s)

    [float] on a string strips white space at both ends, drops an
    underscore that stands between two digits, then reads an optional
    sign followed either by [inf], [infinity] or [nan] in any letter
    case, or by a decimal number with optional fraction and exponent,
    rounded to the nearest float, a tie going to the even one.  Any
    other string raises [ValueError]: [None] here. *)
Module PyParse.

Import PyText.

(** The characters [float] strips. *)
Definition is_space (c : ascii) : bool :=
  ((9 <=? code c) && (code c <=? 13))
  || (code c =? 32) || (code c =? 133) || (code c =? 160).

Fixpoint lstrip (cs : list ascii) : list ascii :=
  match cs with
  | c :: rest => if is_space c then lstrip rest else cs
  | [] => []
  end.

Definition strip (cs : list ascii) : list ascii := rev (lstrip (rev (lstrip cs))).

Definition is_underscore (c : ascii) : bool := code c =? 95.

(** Removes the underscores; each must follow a digit and precede one.
    [prev] is the character before [cs]. *)
Fixpoint drop_underscores (prev : option ascii) (cs : list ascii)
  : option (list ascii) :=
  match cs with
  | [] =>
      match prev with
      | Some p => if is_underscore p then None else Some []
      | None => Some []
      end
  | c :: rest =>
      if is_underscore c then
        match prev with
        | Some p => if is_digit p then drop_underscores (Some c) rest else None
        | None => None
        end
      else
        match prev with
        | Some p =>
            if is_underscore p && negb (is_digit c) then None
            else option_map (cons c) (drop_underscores (Some c) rest)
        | None => option_map (cons c) (drop_underscores (Some c) rest)
        end
  end.

(** The digits at the head of [cs], and what follows them. *)
Fixpoint span_digits (cs : list ascii) : list ascii * list ascii :=
  match cs with
  | c :: rest =>
      if is_digit c then
        let '(ds, tl) := span_digits rest in (c :: ds, tl)
      else ([], cs)
  | [] => ([], [])
  end.

(** The number a list of digits writes. *)
Definition digits_value (ds : list ascii) : Z :=
  fold_left (fun n c => 10 * n + (code c - 48)) ds 0.

(** An optional sign: whether it is a minus, and what follows. *)
Definition take_sign (cs : list ascii) : bool * list ascii :=
  match cs with
  | c :: rest =>
      if code c =? 45 then (true, rest)
      else if code c =? 43 then (false, rest)
      else (false, cs)
  | [] => (false, [])
  end.

(** Letters A to Z put in lower case; the names [inf] and [nan] are
    compared this way. *)
Definition ascii_lower (c : ascii) : ascii :=
  if (65 <=? code c) && (code c <=? 90) then chr (code c + 32) else c.

Definition spells (word : string) (cs : list ascii) : bool :=
  String.eqb (string_of_list_ascii (map ascii_lower cs)) word.

(** The exponent part: nothing, or [e] or [E], an optional sign and at
    least one digit, up to the end of the text. *)
Definition parse_exponent (cs : list ascii) : option Z :=
  match cs with
  | [] => Some 0
  | c :: rest =>
      if (code c =? 101) || (code c =? 69) then
        let '(minus, rest) := take_sign rest in
        match span_digits rest with
        | ((_ :: _) as ds, []) =>
            Some (if minus then - digits_value ds else digits_value ds)
        | _ => None
        end
      else None
  end.

(** A decimal number that fills [cs]: its digits as an integer [n] and
    the power of ten [e] that scales it.  There is at least one digit
    before or after the point. *)
Definition parse_decimal (cs : list ascii) : option (Z * Z) :=
  let '(whole, rest) := span_digits cs in
  let '(frac, rest) :=
    match rest with
    | c :: rest' => if code c =? 46 then span_digits rest' else ([], rest)
    | [] => ([], [])
    end in
  match whole ++ frac with
  | [] => None
  | ds =>
      match parse_exponent rest with
      | Some e => Some (digits_value ds, e - Z.of_nat (List.length frac))
      | None => None
      end
  end%list.

(** The float nearest to [n * 10^e] with the sign [minus]; a value
    beyond the largest float is an infinity.  The two tests on the
    size of the number settle the far overflows and underflows without
    computing a power. *)
Definition nearest_float (minus : bool) (n e : Z) : float :=
  match n with
  | Zpos p =>
      let size := e + Z.of_nat (String.length (PyStr.dec n)) in
      if 310 <? size then S754_infinity minus
      else if size <? -330 then S754_zero minus
      else if 0 <=? e then
        binary_round PyFloat.prec PyFloat.emax minus (p * Z.to_pos (10 ^ e)) 0
      else
        PyFloat.div (S754_finite minus p 0)
          (S754_finite false (Z.to_pos (10 ^ (- e))) 0)
  | _ => S754_zero minus
  end.

(** [float(s)]. *)
Definition py_float (s : string) : option float :=
  match drop_underscores None (strip (list_ascii_of_string s)) with
  | None => None
  | Some cs =>
      let '(minus, body) := take_sign cs in
      if spells "inf" body || spells "infinity" body then Some (S754_infinity minus)
      else if spells "nan" body then Some S754_nan
      else
        match parse_decimal body with
        | Some (n, e) => Some (nearest_float minus n e)
        | None => None
        end
  end.

End PyParse.

(** ** The console *)

(** The lines [input] has yet to read, and the pieces of text written
    to standard output, oldest first. *)
Record world := {
  stdin : list string;
  stdout : list string
}.

(** What stops a run of the prompt sequence: the end of the input, or
    an exception of the composer. *)
Inductive error :=
| EOFError
| Raised (e : exception).

Inductive outcome (A : Type) :=
| Return (a : A)
| Fail (e : error).

Arguments Return {A} a.
Arguments Fail {A} e.

Definition io (A : Type) : Type := world -> outcome A * world.

Definition ret {A : Type} (a : A) : io A := fun w => (Return a, w).

Definition io_bind {A B : Type} (m : io A) (k : A -> io B) : io B :=
  fun w =>
    match m w with
    | (Return a, w') => k a w'
    | (Fail e, w') => (Fail e, w')
    end.

Notation "x <~ m ;; k" := (io_bind m (fun x => k))
  (at level 61, m at next level, right associativity).

(** [input(prompt)]: writes the prompt, then takes the next line, or
    raises [EOFError] when there is none. *)
Definition input (prompt : string) : io string :=
  fun w =>
    let out := (stdout w ++ [prompt])%list in
    match stdin w with
    | line :: rest => (Return line, {| stdin := rest; stdout := out |})
    | [] => (Fail EOFError, {| stdin := []; stdout := out |})
    end.

(** [print(text)]. *)
Definition print (text : string) : io unit :=
  fun w =>
    (Return tt, {| stdin := stdin w; stdout := (stdout w ++ [(text ++ PyText.NL)%string])%list |}).

(** A call into the composer. *)
Definition lift {A : Type} (r : result A) : io A :=
  fun w =>
    match r with
    | Ok a => (Return a, w)
    | Raise e => (Fail (Raised e), w)
    end.

(** ** get_invoice_data_from_user *)

Definition invalid_number_text : string :=
  "Invalid quantity or unit price. Please enter numbers.".

Definition invalid_tax_rate_text : string :=
  "Invalid tax rate. Please enter a number.".

(** The loop that reads the address lines after the first: each turn
    prompts and reads a line, stops on an empty one and appends any
    other to [address].  [lines] is the input left and [out] the text
    written when the turn starts. *)
Fixpoint address_loop (prompt : string) (lines out address : list string)
  : outcome (list string) * world :=
  match lines with
  | line :: rest =>
      let out := (out ++ [prompt])%list in
      if String.eqb line "" then (Return address, {| stdin := rest; stdout := out |})
      else address_loop prompt rest out (address ++ [line])%list
  | [] => (Fail EOFError, {| stdin := []; stdout := (out ++ [prompt])%list |})
  end.

(** The items loop: a turn reads a description and stops when its
    lower case is [done]; otherwise it reads the quantity, then the unit
    price, and appends the item.  A line that [float] rejects ends the
    turn with a message, the item left out and, for the quantity, the
    unit price not asked. *)
Fixpoint items_loop (lines out : list string) (items : list Item)
  : outcome (list Item) * world :=
  match lines with
  | description :: rest =>
      let out := (out ++ ["Item Description (or 'done'): "])%list in
      if String.eqb (PyText.lower description) "done"
      then (Return items, {| stdin := rest; stdout := out |})
      else
        let out := (out ++ ["Quantity: "])%list in
        match rest with
        | line :: rest =>
            match PyParse.py_float line with
            | Some quantity =>
                let out := (out ++ ["Unit Price: "])%list in
                match rest with
                | line :: rest =>
                    match PyParse.py_float line with
                    | Some unit_price =>
                        items_loop rest out
                          (items ++ [ {| description := Some description;
                                         quantity := Some quantity;
                                         unit_price := Some unit_price |} ])%list
                    | None =>
                        items_loop rest (out ++ [(invalid_number_text ++ PyText.NL)%string])%list items
                    end
                | [] => (Fail EOFError, {| stdin := []; stdout := out |})
                end
            | None => items_loop rest (out ++ [(invalid_number_text ++ PyText.NL)%string])%list items
            end
        | [] => (Fail EOFError, {| stdin := []; stdout := out |})
        end
  | [] =>
      (Fail EOFError,
       {| stdin := [];
          stdout := (out ++ ["Item Description (or 'done'): "])%list |})
  end.

(** The tax rate loop: asks until [float] accepts the line. *)
Fixpoint tax_rate_loop (lines out : list string) : outcome float * world :=
  match lines with
  | line :: rest =>
      let out := (out ++ ["Tax Rate (e.g., 0.05 for 5%): "])%list in
      match PyParse.py_float line with
      | Some rate => (Return rate, {| stdin := rest; stdout := out |})
      | None => tax_rate_loop rest (out ++ [(invalid_tax_rate_text ++ PyText.NL)%string])%list
      end
  | [] =>
      (Fail EOFError,
       {| stdin := [];
          stdout := (out ++ ["Tax Rate (e.g., 0.05 for 5%): "])%list |})
  end.

(** An address: the first line, whatever it is, then the lines of the
    loop. *)
Definition read_address (first_prompt next_prompt : string) : io (list string) :=
  first <~ input first_prompt ;;
  fun w => address_loop next_prompt (stdin w) (stdout w) [first].

Definition get_invoice_data_from_user (py : platform) : io InvoiceData :=
  _ <~ print (PyText.NL ++ "--- Enter Invoice Details ---") ;;
  company_name <~ input "Your Company Name: " ;;
  company_address <~
    read_address "Your Company Address Line 1: "
      "Your Company Address Line (leave blank to finish): " ;;
  company_phone <~ input "Your Company Phone: " ;;
  company_email <~ input "Your Company Email: " ;;
  invoice_number <~ input "Invoice Number: " ;;
  invoice_date <~ input "Invoice Date (YYYY-MM-DD): " ;;
  due_date <~ input "Due Date (YYYY-MM-DD): " ;;
  bill_to_name <~ input "Bill To Name: " ;;
  bill_to_address <~
    read_address "Bill To Address Line 1: "
      "Bill To Address Line (leave blank to finish): " ;;
  _ <~ print (PyText.NL ++ "--- Enter Items/Services (type 'done' when finished) ---") ;;
  items <~ (fun w => items_loop (stdin w) (stdout w) []) ;;
  tax_rate <~ (fun w => tax_rate_loop (stdin w) (stdout w)) ;;
  totals <~ lift (calculate_invoice_totals py items tax_rate) ;;
  let '(subtotal, tax_amount, total_amount) := totals in
  payment_terms <~ input "Payment Terms (e.g., 'Net 30', 'Due on receipt'): " ;;
  ret {| invoice_number := Some invoice_number;
         invoice_date := Some (VStr invoice_date);
         due_date := Some (VStr due_date);
         bill_to_name := Some bill_to_name;
         bill_to_address := Some bill_to_address;
         items := Some items;
         subtotal := Some subtotal;
         tax_rate := Some tax_rate;
         tax_amount := Some tax_amount;
         total_amount := Some total_amount;
         company_name := Some company_name;
         company_address := Some company_address;
         company_phone := Some company_phone;
         company_email := Some company_email;
         payment_terms := Some payment_terms |}.

(** ** main

    Returns the document [create_invoice_pdf] has built; as there,
    reportlab is taken not to raise. *)
Definition main (py : platform) : io Built :=
  invoice_data <~ get_invoice_data_from_user py ;;
  invoice_number <~ lift (getitem "invoice_number" (invoice_number invoice_data)) ;;
  let output_filename := "invoice_" ++ invoice_number ++ ".pdf" in
  built <~ lift (create_invoice_pdf py invoice_data output_filename) ;;
  _ <~ print (printed built) ;;
  ret built.

(** ** Vocabulary of the prompt sequence *)

(** [bool(line)]: the line is not empty. *)
Definition nonempty (line : string) : bool := negb (String.eqb line "").

(** The item has its three keys. *)
Definition item_full (item : Item) : bool :=
  present (description item) && present (quantity item) && present (unit_price item).

(** The description of the item is not the word that ends the loop. *)
Definition not_done (item : Item) : bool :=
  match description item with
  | Some d => negb (String.eqb (PyText.lower d) "done")
  | None => true
  end.

(** What the operator types for one turn of the items loop: an item
    with its two numbers, an item given up at the quantity, an item
    given up at the unit price. *)
Inductive entry :=
| Entered (description quantity unit_price : string)
| BadQuantity (description quantity : string)
| BadUnitPrice (description quantity unit_price : string).

Definition entry_lines (e : entry) : list string :=
  match e with
  | Entered d q p => [d; q; p]
  | BadQuantity d q => [d; q]
  | BadUnitPrice d q p => [d; q; p]
  end.

(** The lines are what the constructor says of them. *)
Definition entry_ok (e : entry) : bool :=
  match e with
  | Entered d q p =>
      negb (String.eqb (PyText.lower d) "done")
      && present (PyParse.py_float q) && present (PyParse.py_float p)
  | BadQuantity d q =>
      negb (String.eqb (PyText.lower d) "done") && negb (present (PyParse.py_float q))
  | BadUnitPrice d q p =>
      negb (String.eqb (PyText.lower d) "done")
      && present (PyParse.py_float q) && negb (present (PyParse.py_float p))
  end.

(** The line an entry leaves in the list, if any, and the item that
    holds it. *)
Definition entry_kept (e : entry) : list Line :=
  match e with
  | Entered d q p =>
      match PyParse.py_float q, PyParse.py_float p with
      | Some quantity, Some unit_price =>
          [ {| line_description := d;
               line_quantity := quantity;
               line_unit_price := unit_price |} ]
      | _, _ => []
      end
  | _ => []
  end.

Definition entry_items (e : entry) : list Item := map item_of_line (entry_kept e).

(** The text written during the turn of an entry. *)
Definition entry_output (e : entry) : list string :=
  match e with
  | Entered _ _ _ =>
      ["Item Description (or 'done'): "; "Quantity: "; "Unit Price: "]
  | BadQuantity _ _ =>
      ["Item Description (or 'done'): "; "Quantity: ";
       (invalid_number_text ++ PyText.NL)%string]
  | BadUnitPrice _ _ _ =>
      ["Item Description (or 'done'): "; "Quantity: "; "Unit Price: ";
       (invalid_number_text ++ PyText.NL)%string]
  end.

(** The text written for a line the tax rate loop rejects. *)
Definition rejected_rate_output : list string :=
  ["Tax Rate (e.g., 0.05 for 5%): "; (invalid_tax_rate_text ++ PyText.NL)%string].

(** The keys [calculate_invoice_totals] reads, in reading order. *)
Definition totals_accesses (items : list Item) : list (string * bool) :=
  flat_map (fun item =>
              [ ("quantity", present (quantity item));
                ("unit_price", present (unit_price item)) ]) items.

(** [item] without its description. *)
Definition without_description (item : Item) : Item :=
  {| description := None;
     quantity := quantity item;
     unit_price := unit_price item |}.

(** [s] is made of the digits 0 to 9 ([s.isdigit()], or [s] empty). *)
Fixpoint all_digits (s : string) : bool :=
  match s with
  | EmptyString => true
  | String c rest => PyText.is_digit c && all_digits rest
  end.

(** [x == y] on floats. *)
Definition float_eq (x y : float) : bool := SFeqb x y.

(** Every row of a table has one cell per column width. *)
Definition rectangular (b : flowable) : bool :=
  match b with
  | Table data widths _ =>
      forallb (fun row => Nat.eqb (List.length row) (List.length widths)) data
  | _ => true
  end.

(** The texts that show a number that is not finite as currency. *)
Definition shows_not_finite (v : value) : bool :=
  match v with
  | VStr text =>
      String.eqb text "$nan" || String.eqb text "$inf" || String.eqb text "$-inf"
  | _ => false
  end.

(** ** Sessions

    What the operator types from the first prompt to the last: the
    single answers, the lines of the two addresses after the first, the
    entries of the items loop and the word that ends it, the lines the
    tax rate loop rejects and the one it accepts. *)
Record Session := {
  typed_company_name : string;
  typed_company_address : string;
  typed_company_address_more : list string;
  typed_company_phone : string;
  typed_company_email : string;
  typed_invoice_number : string;
  typed_invoice_date : string;
  typed_due_date : string;
  typed_bill_to_name : string;
  typed_bill_to_address : string;
  typed_bill_to_address_more : list string;
  typed_entries : list entry;
  typed_done : string;
  typed_rejected_rates : list string;
  typed_tax_rate : string;
  typed_payment_terms : string
}.

(** The lines are what the fields say of them. *)
Definition session_ok (s : Session) : bool :=
  forallb nonempty (typed_company_address_more s)
  && forallb nonempty (typed_bill_to_address_more s)
  && forallb entry_ok (typed_entries s)
  && String.eqb (PyText.lower (typed_done s)) "done"
  && forallb (fun l => negb (present (PyParse.py_float l))) (typed_rejected_rates s)
  && present (PyParse.py_float (typed_tax_rate s)).

(** The lines of the session, followed by [rest]. *)
Definition session_lines (s : Session) (rest : list string) : list string :=
  (typed_company_name s
   :: typed_company_address s
   :: typed_company_address_more s
   ++ ""
   :: typed_company_phone s
   :: typed_company_email s
   :: typed_invoice_number s
   :: typed_invoice_date s
   :: typed_due_date s
   :: typed_bill_to_name s
   :: typed_bill_to_address s
   :: typed_bill_to_address_more s
   ++ ""
   :: flat_map entry_lines (typed_entries s)
   ++ typed_done s
   :: typed_rejected_rates s
   ++ typed_tax_rate s
   :: typed_payment_terms s
   :: rest)%list.

(** The text written during the session. *)
Definition session_output (s : Session) : list string :=
  ([ ((PyText.NL ++ "--- Enter Invoice Details ---") ++ PyText.NL)%string;
     "Your Company Name: ";
     "Your Company Address Line 1: " ]
   ++ repeat "Your Company Address Line (leave blank to finish): "
        (S (List.length (typed_company_address_more s)))
   ++ [ "Your Company Phone: ";
        "Your Company Email: ";
        "Invoice Number: ";
        "Invoice Date (YYYY-MM-DD): ";
        "Due Date (YYYY-MM-DD): ";
        "Bill To Name: ";
        "Bill To Address Line 1: " ]
   ++ repeat "Bill To Address Line (leave blank to finish): "
        (S (List.length (typed_bill_to_address_more s)))
   ++ [ ((PyText.NL ++ "--- Enter Items/Services (type 'done' when finished) ---")
         ++ PyText.NL)%string ]
   ++ flat_map entry_output (typed_entries s)
   ++ [ "Item Description (or 'done'): " ]
   ++ flat_map (fun _ => rejected_rate_output) (typed_rejected_rates s)
   ++ [ "Tax Rate (e.g., 0.05 for 5%): ";
        "Payment Terms (e.g., 'Net 30', 'Due on receipt'): " ])%list.

(** The tax rate of the session. *)
Definition session_tax_rate (s : Session) : float :=
  match PyParse.py_float (typed_tax_rate s) with
  | Some rate => rate
  | None => PyFloat.nan
  end.

(** The amounts of lines, in order. *)
Definition amounts (lines : list Line) : list float :=
  map (fun l => PyFloat.mul (line_quantity l) (line_unit_price l)) lines.

(** The invoice the session describes, with its totals. *)
Definition session_invoice (py : platform) (s : Session) : Invoice :=
  let lines := flat_map entry_kept (typed_entries s) in
  let rate := session_tax_rate s in
  let subtotal := py_sum py (amounts lines) in
  let tax_amount := num_mul subtotal rate in
  {| inv_invoice_number := typed_invoice_number s;
     inv_invoice_date := VStr (typed_invoice_date s);
     inv_due_date := VStr (typed_due_date s);
     inv_bill_to_name := typed_bill_to_name s;
     inv_bill_to_address := typed_bill_to_address s :: typed_bill_to_address_more s;
     inv_items := lines;
     inv_subtotal := subtotal;
     inv_tax_rate := rate;
     inv_tax_amount := tax_amount;
     inv_total_amount := num_add subtotal tax_amount;
     inv_company_name := typed_company_name s;
     inv_company_address := typed_company_address s :: typed_company_address_more s;
     inv_company_phone := typed_company_phone s;
     inv_company_email := typed_company_email s;
     inv_payment_terms := typed_payment_terms s |}.

(** What [main] has done at the end of the session: the document
    named after the invoice number, and the line printed. *)
Definition session_built (py : platform) (s : Session) : Built :=
  {| filename := "invoice_" ++ typed_invoice_number s ++ ".pdf";
     pagesize := letter;
     story := composed py (session_invoice py s);
     printed := "Invoice '" ++ ("invoice_" ++ typed_invoice_number s ++ ".pdf")
                ++ "' generated successfully!" |}.

(** A session that answers every prompt, with an item given up at the
    quantity and a tax rate typed twice. *)
Definition sample_session : Session :=
  {| typed_company_name := "Company";
     typed_company_address := "2 Main Road";
     typed_company_address_more := [];
     typed_company_phone := "555-0100";
     typed_company_email := "billing@example.com";
     typed_invoice_number := "INV-001";
     typed_invoice_date := "2024-03-15";
     typed_due_date := "2024-04-14";
     typed_bill_to_name := "Client";
     typed_bill_to_address := "1 High Street";
     typed_bill_to_address_more := ["Springfield"];
     typed_entries :=
       [ Entered "Widget" "2" "9.99";
         BadQuantity "Gadget" "two";
         Entered "Service" "1" "50.00" ];
     typed_done := "Done";
     typed_rejected_rates := ["8%"];
     typed_tax_rate := "0.08";
     typed_payment_terms := "Net 30" |}.

(** The console at the start of the sample session. *)
Definition sample_world : world :=
  {| stdin := session_lines sample_session []; stdout := [] |}.

(** A line whose quantity is NaN, and an invoice with the totals
    [calculate_invoice_totals] returns for it. *)
Definition nan_line : Line :=
  {| line_description := "Widget";
     line_quantity := PyFloat.nan;
     line_unit_price := PyFloat.lit 999 2 |}.

Definition nan_invoice : Invoice :=
  {| inv_invoice_number := "INV-002";
     inv_invoice_date := VStr "2024-03-15";
     inv_due_date := VStr "2024-04-14";
     inv_bill_to_name := "Client";
     inv_bill_to_address := ["1 High Street"];
     inv_items := [nan_line];
     inv_subtotal := PyFloat PyFloat.nan;
     inv_tax_rate := PyFloat.lit 8 2;
     inv_tax_amount := PyFloat.nan;
     inv_total_amount := PyFloat.nan;
     inv_company_name := "Company";
     inv_company_address := ["2 Main Road"];
     inv_company_phone := "555-0100";
     inv_company_email := "billing@example.com";
     inv_payment_terms := "Net 30" |}.

(** * Properties *)

(** Reads the next key of the goal: goes on when the dict has it, and
    closes the goal with the hypothesis on the first absent key when it
    has not. *)
Ltac read_key H :=
  match goal with
  | |- context [getitem _ ?field] =>
      destruct field;
      [ cbn [getitem bind]
      | cbn in H; injection H as <-; reflexivity ]
  end.

Ltac skip_key H :=
  match goal with
  | |- context [getitem _ ?field] =>
      destruct field; [cbn [getitem bind] | discriminate]
  end.

(** ** calculate_invoice_totals *)

Lemma fold_sum_snoc (xs : list float) (x : float) (acc : num) :
  fold_left (fun acc x => PyFloat (num_add acc x)) (xs ++ [x]) acc
  = PyFloat (num_add (fold_left (fun acc x => PyFloat (num_add acc x)) xs acc) x).
Proof. now rewrite fold_left_app. Qed.

Lemma plain_sum_running (xs : list float) : running_sum xs (plain_sum xs).
Proof.
  induction xs as [|x xs IH] using rev_ind.
  - constructor.
  - unfold plain_sum. rewrite fold_sum_snoc. now constructor.
Qed.

Lemma running_sum_plain (xs : list float) (s : num) :
  running_sum xs s -> s = plain_sum xs.
Proof.
  induction 1 as [|xs s x _ ->]; [reflexivity|].
  unfold plain_sum. now rewrite fold_sum_snoc.
Qed.

Lemma fold_compensate_running (xs : list float) (x : float) :
  compensated_running (x :: xs)
    (fold_left compensate xs (num_add PyInt0 x, PyFloat.zero)).
Proof.
  induction xs as [|y xs IH] using rev_ind.
  - constructor.
  - rewrite fold_left_app. cbn [fold_left].
    change (x :: xs ++ [y])%list with ((x :: xs) ++ [y])%list. now constructor.
Qed.

Lemma compensated_running_fold (xs : list float) (fc : float * float) :
  compensated_running xs fc ->
  exists x xs', xs = (x :: xs')%list
    /\ fc = fold_left compensate xs' (num_add PyInt0 x, PyFloat.zero).
Proof.
  induction 1 as [x|xs fc y _ (x & xs' & -> & ->)].
  - now exists x, [].
  - exists x, (xs' ++ [y])%list. split; [reflexivity|].
    now rewrite fold_left_app.
Qed.

(** The two readings of [sum] agree: [summed] holds of the value
    [py_sum] computes and of no other. *)
Lemma summed_py_sum (py : platform) (xs : list float) (s : num) :
  summed py xs s <-> s = py_sum py xs.
Proof.
  unfold py_sum. split.
  - intros [xs' s' Hc H|Hc|xs' fc Hc H]; rewrite Hc.
    + now apply running_sum_plain.
    + reflexivity.
    + apply compensated_running_fold in H as (x & xs'' & -> & ->). reflexivity.
  - intros ->. destruct (compensated_sum py) eqn:Hc.
    + destruct xs as [|x xs]; [now apply summed_none|].
      apply summed_compensated; [exact Hc|]. apply fold_compensate_running.
    + apply summed_plain; [exact Hc|]. apply plain_sum_running.
Qed.

(** The running sum of a compensated [sum] is the plain sum: the
    compensation is kept apart until the end. *)
Lemma fold_compensate_fst (xs : list float) (f c : float) :
  fst (fold_left compensate xs (f, c))
  = to_float (fold_left (fun acc x => PyFloat (num_add acc x)) xs (PyFloat f)).
Proof.
  revert f c. induction xs as [|x xs IH]; intros f c; [reflexivity|].
  cbn [fold_left]. unfold compensate at 2.
  destruct (PyFloat.ge (PyFloat.abs f) (PyFloat.abs x)); apply IH.
Qed.

Lemma compensated_not_finite (fc : float * float) :
  PyFloat.is_finite (fst fc) = false ->
  PyFloat.is_finite (compensated fc) = false.
Proof.
  destruct fc as [f c]. cbn [fst compensated]. intros H.
  destruct (negb (PyFloat.is_zero c) && PyFloat.is_finite c); [|exact H].
  destruct f as [|[]| |]; try discriminate; destruct c as [|[]| |]; reflexivity.
Qed.

Lemma for_each_item_amount (items : list Item) (amounts : list float) :
  Forall2 line_amount items amounts -> for_each item_amount items = Ok amounts.
Proof.
  induction 1 as [|item a items amounts (q & p & Hq & Hp & ->) _ IH]; [reflexivity|].
  cbn [for_each]. unfold item_amount at 1. rewrite Hq, Hp. cbn [getitem bind].
  now rewrite IH.
Qed.

Lemma mul_not_finite_l (x y : float) :
  PyFloat.is_finite x = false -> PyFloat.is_finite (PyFloat.mul x y) = false.
Proof. destruct x as [| | |]; try discriminate; destruct y; intros _; reflexivity. Qed.

Lemma mul_not_finite_r (x y : float) :
  PyFloat.is_finite y = false -> PyFloat.is_finite (PyFloat.mul x y) = false.
Proof. destruct y as [| | |]; try discriminate; destruct x; intros _; reflexivity. Qed.

Lemma add_not_finite_l (x y : float) :
  PyFloat.is_finite x = false -> PyFloat.is_finite (PyFloat.add x y) = false.
Proof.
  destruct x as [|[]| |]; try discriminate; destruct y as [|[]| |]; intros _; reflexivity.
Qed.

Lemma add_not_finite_r (x y : float) :
  PyFloat.is_finite y = false -> PyFloat.is_finite (PyFloat.add x y) = false.
Proof.
  destruct y as [|[]| |]; try discriminate; destruct x as [|[]| |]; intros _; reflexivity.
Qed.

Lemma fold_sum_not_finite (xs : list float) (acc : num) :
  PyFloat.is_finite (to_float acc) = false
  \/ existsb (fun x => negb (PyFloat.is_finite x)) xs = true ->
  PyFloat.is_finite
    (to_float (fold_left (fun acc x => PyFloat (num_add acc x)) xs acc)) = false.
Proof.
  revert acc. induction xs as [|x xs IH]; intros acc [H|H]; cbn [fold_left].
  - exact H.
  - discriminate.
  - apply IH. left. cbn [to_float]. now apply add_not_finite_l.
  - apply IH. cbn [existsb] in H. apply orb_prop in H as [H|H].
    + left. cbn [to_float]. apply add_not_finite_r.
      now apply negb_true_iff in H.
    + now right.
Qed.

Lemma py_sum_not_finite (py : platform) (xs : list float) :
  existsb (fun x => negb (PyFloat.is_finite x)) xs = true ->
  PyFloat.is_finite (to_float (py_sum py xs)) = false.
Proof.
  intros H. unfold py_sum. destruct (compensated_sum py).
  - destruct xs as [|x xs]; [discriminate|]. cbn [compensated_sum_of to_float].
    apply compensated_not_finite. rewrite fold_compensate_fst.
    change (PyFloat (num_add PyInt0 x))
      with ((fun acc x => PyFloat (num_add acc x)) PyInt0 x).
    change (PyFloat.is_finite (to_float (fold_left
      (fun acc x => PyFloat (num_add acc x)) (x :: xs) PyInt0)) = false).
    apply fold_sum_not_finite. now right.
  - apply fold_sum_not_finite. now right.
Qed.

Lemma amounts_not_finite (items : list Item) (amounts : list float) :
  Forall2 line_amount items amounts ->
  existsb item_not_finite items = true ->
  existsb (fun x => negb (PyFloat.is_finite x)) amounts = true.
Proof.
  induction 1 as [|item a items amounts (q & p & Hq & Hp & ->) _ IH]; [easy|].
  cbn [existsb]. intros H. apply orb_prop in H as [H|H].
  - apply orb_true_intro. left. unfold item_not_finite in H. rewrite Hq, Hp in H.
    apply negb_true_iff. apply orb_prop in H as [H|H]; apply negb_true_iff in H.
    + now apply mul_not_finite_l.
    + now apply mul_not_finite_r.
  - apply orb_true_intro. right. now apply IH.
Qed.

Lemma mul_zero_finite (s : bool) (r : float) :
  PyFloat.is_finite r = true ->
  PyFloat.is_zero (PyFloat.mul (S754_zero s) r) = true.
Proof. destruct r; try discriminate; reflexivity. Qed.

Lemma add_zero_zero (x : float) :
  PyFloat.is_zero x = true -> PyFloat.is_zero (PyFloat.add PyFloat.zero x) = true.
Proof. destruct x as [[]| | |]; try discriminate; reflexivity. Qed.

Lemma line_amount_of_line (l : Line) :
  line_amount (item_of_line l) (PyFloat.mul (line_quantity l) (line_unit_price l)).
Proof. now exists (line_quantity l), (line_unit_price l). Qed.

Example scenario_totals :
  match calculate_invoice_totals glibc_311 (map item_of_line [widget; service]) (PyFloat.lit 8 2) with
  | Ok (subtotal, tax_amount, total_amount) =>
      (PyStr.str_float (to_float subtotal), currency tax_amount, currency total_amount)
      = ("69.98", "$5.60", "$75.58")
  | Raise _ => False
  end.
Proof. vm_compute. reflexivity. Qed.

(** The two ways of [sum]: ten times 0.1 add up to 0.9999999999999999
    plainly and to 1.0 with the compensation. *)
Example tenths_summed :
  PyStr.str_float (to_float (py_sum glibc_311 (repeat (PyFloat.lit 1 1) 10)))
  = "0.9999999999999999"
  /\ PyStr.str_float (to_float (py_sum padded_312 (repeat (PyFloat.lit 1 1) 10)))
     = "1.0".
Proof. split; vm_compute; reflexivity. Qed.

(** A compensated sum is not the sum of its first terms plus the last:
    1e16, 1.0 and 1.0 add up to 1.0000000000000002e+16, and 1.0 added
    to the sum of 1e16 and 1.0 is 1e16. *)
Example compensated_append :
  PyStr.str_float
    (to_float (py_sum padded_312
                 [PyFloat.of_int (10 ^ 16); PyFloat.lit 1 0; PyFloat.lit 1 0]))
  = "1.0000000000000002e+16"
  /\ PyStr.str_float
       (num_add (py_sum padded_312 [PyFloat.of_int (10 ^ 16); PyFloat.lit 1 0])
          (PyFloat.lit 1 0))
     = "1e+16".
Proof. split; vm_compute; reflexivity. Qed.

(** C1 (as amended). On every platform, for every list of items whose
    quantity and unit_price are present and every tax rate [r],
    [calculate_invoice_totals] returns: as subtotal, the sum of the
    amounts quantity * unit_price taken in list order, as [sum] computes
    it on the platform (the plain running sum, or the compensated one);
    as tax amount, subtotal * r; as total amount, subtotal + tax amount.
    For the empty list the subtotal is the int 0, and the tax amount and
    the total amount are zero when [r] is finite. *)
Theorem calculate_invoice_totals_spec (py : platform)
    (items : list Item) (amounts : list float) (r : float) :
  Forall2 line_amount items amounts ->
  exists subtotal tax_amount total_amount,
    calculate_invoice_totals py items r = Ok (subtotal, tax_amount, total_amount)
    /\ summed py amounts subtotal
    /\ tax_amount = num_mul subtotal r
    /\ total_amount = num_add subtotal tax_amount
    /\ (items = [] ->
        subtotal = PyInt0
        /\ (PyFloat.is_finite r = true ->
            PyFloat.is_zero tax_amount = true
            /\ PyFloat.is_zero total_amount = true)).
Proof.
  intros H. unfold calculate_invoice_totals.
  rewrite (for_each_item_amount _ _ H). cbn [bind].
  eexists _, _, _. split; [reflexivity|].
  split; [now apply summed_py_sum|]. do 2 (split; [reflexivity|]).
  intros ->. inversion H; subst.
  assert (Hs : py_sum py [] = PyInt0) by (unfold py_sum; now destruct (compensated_sum py)).
  rewrite Hs. split; [reflexivity|].
  intros Hr. unfold num_mul, num_add. cbn [to_float].
  pose proof (mul_zero_finite false r Hr) as Hz. split; [exact Hz|].
  now apply add_zero_zero.
Qed.

Lemma calculate_invoice_totals_spec_witness :
  Forall2 line_amount (map item_of_line [widget; service])
    (map (fun l => PyFloat.mul (line_quantity l) (line_unit_price l)) [widget; service])
  /\ exists subtotal tax_amount total_amount,
      calculate_invoice_totals glibc_311 (map item_of_line [widget; service]) (PyFloat.lit 8 2)
      = Ok (subtotal, tax_amount, total_amount)
      /\ summed glibc_311
           (map (fun l => PyFloat.mul (line_quantity l) (line_unit_price l))
              [widget; service]) subtotal
      /\ tax_amount = num_mul subtotal (PyFloat.lit 8 2)
      /\ total_amount = num_add subtotal tax_amount
      /\ (map item_of_line [widget; service] = [] ->
          subtotal = PyInt0
          /\ (PyFloat.is_finite (PyFloat.lit 8 2) = true ->
              PyFloat.is_zero tax_amount = true
              /\ PyFloat.is_zero total_amount = true)).
Proof.
  assert (H : Forall2 line_amount (map item_of_line [widget; service])
                (map (fun l => PyFloat.mul (line_quantity l) (line_unit_price l))
                   [widget; service])).
  { simpl. repeat constructor; apply line_amount_of_line. }
  split; [exact H|].
  exact (calculate_invoice_totals_spec glibc_311 _ _ (PyFloat.lit 8 2) H).
Defined.

(** C1, as stated, fails: with no item and an infinite tax rate the tax
    amount [0 * inf] and the total amount are NaN, not 0. *)
Lemma calculate_invoice_totals_empty_inf :
  calculate_invoice_totals glibc_311 [] PyFloat.inf = Ok (PyInt0, PyFloat.nan, PyFloat.nan)
  /\ PyFloat.is_zero PyFloat.nan = false.
Proof. split; reflexivity. Qed.

(** C4 (as amended). [calculate_invoice_totals] checks no number: on
    items whose quantity and unit_price are present it returns, and when
    some quantity or unit_price is infinite or NaN the three totals it
    returns are infinite or NaN. *)
Theorem calculate_invoice_totals_not_finite (py : platform)
    (items : list Item) (amounts : list float) (r : float) :
  Forall2 line_amount items amounts ->
  exists subtotal tax_amount total_amount,
    calculate_invoice_totals py items r = Ok (subtotal, tax_amount, total_amount)
    /\ (existsb item_not_finite items = true ->
        PyFloat.is_finite (to_float subtotal) = false
        /\ PyFloat.is_finite tax_amount = false
        /\ PyFloat.is_finite total_amount = false).
Proof.
  intros H. unfold calculate_invoice_totals.
  rewrite (for_each_item_amount _ _ H). cbn [bind].
  eexists _, _, _. split; [reflexivity|]. intros Hnf.
  assert (Hs : PyFloat.is_finite (to_float (py_sum py amounts)) = false).
  { apply py_sum_not_finite. now apply (amounts_not_finite items). }
  split; [exact Hs|]. split.
  - now apply mul_not_finite_l.
  - now apply add_not_finite_l.
Qed.

Lemma calculate_invoice_totals_not_finite_witness :
  Forall2 line_amount
    [ nan_widget ]
    [ PyFloat.mul PyFloat.nan (PyFloat.lit 999 2) ]
  /\ exists subtotal tax_amount total_amount,
      calculate_invoice_totals glibc_311
        [ nan_widget ] (PyFloat.lit 8 2)
      = Ok (subtotal, tax_amount, total_amount)
      /\ (existsb item_not_finite
            [ nan_widget ] = true ->
          PyFloat.is_finite (to_float subtotal) = false
          /\ PyFloat.is_finite tax_amount = false
          /\ PyFloat.is_finite total_amount = false).
Proof.
  assert (H : Forall2 line_amount
    [ nan_widget ]
    [ PyFloat.mul PyFloat.nan (PyFloat.lit 999 2) ]).
  { repeat constructor. eexists _, _. repeat split; reflexivity. }
  split; [exact H|].
  exact (calculate_invoice_totals_not_finite glibc_311 _ _ (PyFloat.lit 8 2) H).
Defined.

(** C4, as stated, fails: a NaN quantity raises nothing, the call
    returns three NaN. *)
Lemma calculate_invoice_totals_nan_returns :
  item_not_finite
    nan_widget = true
  /\ calculate_invoice_totals glibc_311
       [ nan_widget ] (PyFloat.lit 8 2)
     = Ok (PyFloat PyFloat.nan, PyFloat.nan, PyFloat.nan).
Proof. split; reflexivity. Qed.

(** ** Rounding of the displayed amounts *)

Section Rounding.

Variables n d : Z.
Hypothesis d_pos : 0 < d.

Lemma div_half_even_nearest : nearest n d (PyStr.div_half_even n d).
Proof.
  unfold nearest, PyStr.div_half_even.
  pose proof (Z.div_mod n d ltac:(lia)) as Hn.
  pose proof (Z.mod_pos_bound n d d_pos) as Hr.
  rewrite (Z.mul_comm d) in Hn.
  destruct (Z.compare_spec (2 * (n mod d)) d); [destruct (Z.even (n / d))| |]; lia.
Qed.

Lemma div_half_even_tie :
  2 * (n mod d) = d -> Z.even (PyStr.div_half_even n d) = true.
Proof.
  intros H. unfold PyStr.div_half_even. rewrite H, Z.compare_refl.
  destruct (Z.even (n / d)) eqn:E; [exact E|].
  rewrite Z.even_add, E. reflexivity.
Qed.

Lemma div_half_even_half_up :
  2 * (n mod d) <> d -> PyStr.div_half_even n d = round_half_up n d.
Proof.
  intros H. unfold PyStr.div_half_even, round_half_up.
  pose proof (Z.div_mod n d ltac:(lia)) as Hn.
  pose proof (Z.mod_pos_bound n d d_pos) as Hr.
  destruct (Z.compare_spec (2 * (n mod d)) d) as [E|E|E]; [contradiction| |].
  - apply Z.div_unique with (r := 2 * (n mod d) + d); lia.
  - apply Z.div_unique with (r := 2 * (n mod d) - d); lia.
Qed.

End Rounding.

Lemma scaled_den_pos (e : Z) : 0 < scaled_den e.
Proof. unfold scaled_den. apply Z.pow_pos_nonneg; lia. Qed.

Lemma scaled_div_half_even (p : nat) (m : positive) (e : Z) :
  PyStr.scaled p m e = PyStr.div_half_even (scaled_num p m e) (scaled_den e).
Proof.
  unfold PyStr.scaled, scaled_num, scaled_den.
  destruct (Z.leb_spec 0 e) as [He|He].
  - rewrite (Z.max_l e 0), (Z.max_r (- e) 0) by lia.
    change (2 ^ 0) with 1. unfold PyStr.div_half_even.
    rewrite Z.mod_1_r, Z.div_1_r. reflexivity.
  - rewrite (Z.max_r e 0), (Z.max_l (- e) 0) by lia.
    change (2 ^ 0) with 1. now rewrite Z.mul_1_r.
Qed.

Example currency_10_005 : currency (PyFloat.lit 10005 3) = "$10.01".
Proof. vm_compute. reflexivity. Qed.

Example currency_0_125 : currency (PyFloat.lit 125 3) = "$0.12".
Proof. vm_compute. reflexivity. Qed.

(** C2 (as amended). The currency text of a finite non-zero float is
    [$], a minus sign for a negative value, then the value rounded to
    two places to the nearest, a tie going to the even last digit: off a
    tie this is the half-up text; the float 10.005 lies above the tie
    and shows as $10.01.  Zeros show as $0.00 or $-0.00, infinities as
    $inf or $-inf, NaN as $nan. *)
Theorem currency_round_half_even (s : bool) (m : positive) (e : Z) :
  let x := S754_finite s m e in
  let q := PyStr.scaled 2 m e in
  currency x = "$" ++ PyStr.sign_text s ++ PyStr.fixed 2 q
  /\ nearest (scaled_num 2 m e) (scaled_den e) q
  /\ (is_tie 2 m e = true -> Z.even q = true)
  /\ (is_tie 2 m e = false -> currency x = currency_half_up x)
  /\ currency (PyFloat.lit 10005 3) = "$10.01"
  /\ currency (S754_zero s) = "$" ++ PyStr.sign_text s ++ "0.00"
  /\ currency (S754_infinity s) = "$" ++ PyStr.sign_text s ++ "inf"
  /\ currency S754_nan = "$nan".
Proof.
  cbn zeta. rewrite scaled_div_half_even.
  pose proof (scaled_den_pos e) as Hd.
  split; [unfold currency; cbn [PyStr.format_f]; now rewrite scaled_div_half_even|].
  split; [now apply div_half_even_nearest|].
  split; [intros H; apply div_half_even_tie; unfold is_tie in H; lia|].
  split.
  - intros H. unfold currency, currency_half_up. cbn [PyStr.format_f].
    rewrite scaled_div_half_even, div_half_even_half_up; [reflexivity|exact Hd|].
    unfold is_tie in H. lia.
  - split; [apply currency_10_005|]. now destruct s.
Qed.

(** C2, as stated, fails: 0.125 is a float and a tie; the code shows
    $0.12 where half-up rounding gives $0.13. *)
Lemma currency_not_half_up :
  currency (PyFloat.lit 125 3) = "$0.12"
  /\ currency_half_up (PyFloat.lit 125 3) = "$0.13".
Proof. split; vm_compute; reflexivity. Qed.

(** ** The story of a complete invoice *)

Lemma for_each_item_row (lines : list Line) :
  for_each item_row (map item_of_line lines) = Ok (map line_row lines).
Proof.
  induction lines as [|l lines IH]; [reflexivity|].
  cbn [map for_each]. unfold item_row at 1. cbn [item_of_line quantity unit_price
    description getitem bind]. rewrite IH. reflexivity.
Qed.

Lemma build_story_complete (py : platform) (inv : Invoice) :
  build_story py (dict_of_invoice inv) = Ok (composed py inv).
Proof.
  unfold build_story, dict_of_invoice.
  cbn [company_name company_address company_phone company_email invoice_number
       invoice_date due_date bill_to_name bill_to_address items subtotal tax_rate
       tax_amount total_amount payment_terms getitem bind].
  rewrite for_each_item_row. cbn [bind]. f_equal.
  unfold composed, address_lines, details_data, items_data, totals_data, tax_label,
    num_format_f, currency.
  cbn [app]. repeat rewrite <- app_assoc. cbn [app]. reflexivity.
Qed.

Lemma create_invoice_pdf_complete (py : platform)
    (inv : Invoice) (output_filename : string) :
  story_of (create_invoice_pdf py (dict_of_invoice inv) output_filename)
  = Ok (composed py inv).
Proof.
  unfold story_of, create_invoice_pdf. now rewrite build_story_complete.
Qed.

Lemma filter_address_lines (lines : list string) :
  filter is_table (address_lines lines) = [].
Proof. induction lines as [|l lines IH]; [reflexivity|exact IH]. Qed.

Lemma tables_composed (py : platform) (inv : Invoice) :
  tables (composed py inv) = [details_data py inv; items_data inv; totals_data inv].
Proof.
  unfold tables, composed. cbn [filter is_table].
  rewrite !filter_app, !filter_address_lines. reflexivity.
Qed.

Lemma length_composed (py : platform) (inv : Invoice) :
  List.length (composed py inv)
  = (19 + List.length (inv_company_address inv)
     + List.length (inv_bill_to_address inv))%nat.
Proof.
  unfold composed, address_lines. cbn [List.length].
  rewrite !length_app, !length_map. cbn [List.length]. lia.
Qed.






Lemma zfill_below (w : nat) (bound n : Z) :
  forallb (fun k => Nat.eqb (String.length (PyStr.zfill w (PyStr.dec (Z.of_nat k)))) w)
    (seq 0 (Z.to_nat bound)) = true ->
  0 <= n < bound ->
  String.length (PyStr.zfill w (PyStr.dec n)) = w.
Proof.
  intros Hall Hn. rewrite forallb_forall in Hall.
  specialize (Hall (Z.to_nat n)). rewrite Z2Nat.id in Hall by lia.
  apply Nat.eqb_eq, Hall, in_seq. lia.
Qed.


Lemma zfill_month_day (n : Z) :
  0 <= n < 100 -> String.length (PyStr.zfill 2 (PyStr.dec n)) = 2%nat.
Proof. apply zfill_below. vm_compute. reflexivity. Qed.



Example sample_tables :
  option_map tables
    (match build_story glibc_311 (dict_of_invoice sample_invoice) with
     | Ok story => Some story
     | Raise _ => None
     end)
  = Some
      [ [ [VStr "Invoice #:"; VStr "INV-001"];
          [VStr "Invoice Date:"; VStr "2024-03-15"];
          [VStr "Due Date:"; VStr "2024-04-14"] ];
        [ [VStr "Description"; VStr "Quantity"; VStr "Unit Price"; VStr "Amount"];
          [VStr "Widget"; VStr "2.0"; VStr "$9.99"; VStr "$19.98"];
          [VStr "Service"; VStr "1.0"; VStr "$50.00"; VStr "$50.00"] ];
        [ [VStr "Subtotal:"; VStr "$69.98"];
          [VStr "Tax (8%):"; VStr "$5.60"];
          [VStr "TOTAL DUE:"; VStr "$75.58"] ] ].
Proof. vm_compute. reflexivity. Qed.



(** C5 (as amended). The composer rejects no date value: for a complete
    invoice it returns a story whatever the two date fields hold, and a
    date field that holds anything but a datetime (a string, [None], a
    number) is put in the details table as it is. *)
Theorem details_table_any_date (py : platform)
    (inv : Invoice) (output_filename : string) :
  exists story data,
    build_story py (dict_of_invoice inv) = Ok story
    /\ story_of (create_invoice_pdf py (dict_of_invoice inv) output_filename) = Ok story
    /\ nth_error (tables story) 0 = Some data
    /\ (isinstance_datetime (inv_invoice_date inv) = false ->
        cell data 1 1 = Some (inv_invoice_date inv))
    /\ (isinstance_datetime (inv_due_date inv) = false ->
        cell data 2 1 = Some (inv_due_date inv)).
Proof.
  exists (composed py inv), (details_data py inv).
  split; [apply build_story_complete|].
  split; [apply create_invoice_pdf_complete|].
  split; [now rewrite tables_composed|].
  unfold details_data, cell. cbn [nth_error].
  split; intros H; [destruct (inv_invoice_date inv)|destruct (inv_due_date inv)];
    try discriminate; reflexivity.
Qed.

(** C5, as stated, fails: with [None] for invoice date and a number for
    due date, neither a datetime nor a string, the call returns a story
    and the details table holds the two values. *)
Lemma undated_invoice_composed :
  isinstance_datetime (inv_invoice_date undated_invoice) = false
  /\ isinstance_str (inv_invoice_date undated_invoice) = false
  /\ isinstance_datetime (inv_due_date undated_invoice) = false
  /\ isinstance_str (inv_due_date undated_invoice) = false
  /\ build_story glibc_311 (dict_of_invoice undated_invoice) = Ok (composed glibc_311 undated_invoice)
  /\ nth_error (tables (composed glibc_311 undated_invoice)) 0
     = Some [ [VStr "Invoice #:"; VStr "INV-001"];
              [VStr "Invoice Date:"; VNone];
              [VStr "Due Date:"; VFloat (PyFloat.lit 20240414 0)] ].
Proof.
  do 4 (split; [reflexivity|]).
  split; [apply build_story_complete|]. now rewrite tables_composed.
Qed.

(** C7. The items table of the story of a complete invoice is the
    header row Description, Quantity, Unit Price, Amount, then one row
    per item in list order: the description, [str] of the quantity, the
    unit price and the amount quantity * unit_price as currency.  With
    no item the table is the header row alone. *)
Theorem items_table_rows (py : platform) (inv : Invoice) :
  exists story data,
    build_story py (dict_of_invoice inv) = Ok story
    /\ nth_error (tables story) 1 = Some data
    /\ data
       = [VStr "Description"; VStr "Quantity"; VStr "Unit Price"; VStr "Amount"]
         :: map (fun l =>
                   [ VStr (line_description l);
                     VStr (PyStr.str_float (line_quantity l));
                     VStr (currency (line_unit_price l));
                     VStr (currency (PyFloat.mul (line_quantity l) (line_unit_price l))) ])
              (inv_items inv)
    /\ List.length data = S (List.length (inv_items inv))
    /\ (inv_items inv = [] ->
        data = [[VStr "Description"; VStr "Quantity"; VStr "Unit Price"; VStr "Amount"]]).
Proof.
  exists (composed py inv), (items_data inv).
  split; [apply build_story_complete|].
  split; [now rewrite tables_composed|].
  split; [reflexivity|].
  split; [unfold items_data; cbn [List.length]; now rewrite length_map|].
  intros H. unfold items_data. now rewrite H.
Qed.


Lemma last_app_cons {A : Type} (l1 : list A) (x : A) (l2 : list A) (d : A) :
  last (l1 ++ x :: l2) d = last (x :: l2) d.
Proof.
  induction l1 as [|y l1 IH]; [reflexivity|].
  cbn [app]. rewrite <- IH. destruct l1; reflexivity.
Qed.

(** C10. The story of a complete invoice is not empty; its first block
    is the heading that carries the company name, its last block the
    heading "Thank you for your business!", and it has 19 blocks plus
    one per line of the company address and one per line of the bill-to
    address, whatever the items. *)
Theorem story_shape (py : platform) (inv : Invoice) :
  exists story,
    build_story py (dict_of_invoice inv) = Ok story
    /\ story <> []
    /\ hd_error story = Some (Paragraph (inv_company_name inv) h1)
    /\ is_heading (Paragraph (inv_company_name inv) h1) = true
    /\ last story (Spacer 0 PyFloat.zero)
       = Paragraph "Thank you for your business!" h3
    /\ is_heading (Paragraph "Thank you for your business!" h3) = true
    /\ List.length story
       = (19 + List.length (inv_company_address inv)
          + List.length (inv_bill_to_address inv))%nat
    /\ (forall lines, exists story',
          build_story py (dict_of_invoice (with_items inv lines)) = Ok story'
          /\ List.length story' = List.length story).
Proof.
  exists (composed py inv).
  split; [apply build_story_complete|].
  split; [discriminate|]. split; [reflexivity|]. split; [reflexivity|].
  split; [|split; [reflexivity|split; [apply length_composed|]]].
  - unfold composed. rewrite app_comm_cons, !app_assoc.
    now rewrite !last_app_cons.
  - intros lines. exists (composed py (with_items inv lines)).
    split; [apply build_story_complete|]. now rewrite !length_composed.
Qed.

(** ** Absent keys *)

Lemma find_app {A : Type} (f : A -> bool) (l1 l2 : list A) :
  find f (l1 ++ l2)
  = match find f l1 with
    | Some x => Some x
    | None => find f l2
    end.
Proof.
  induction l1 as [|x l1 IH]; [reflexivity|].
  cbn [app find]. now destruct (f x).
Qed.

Lemma item_rows_first_absent (its : list Item) :
  match find (fun a => negb (snd a)) (flat_map item_accesses its) with
  | Some a => for_each item_row its = Raise (KeyError (fst a))
  | None => exists rows, for_each item_row its = Ok rows
  end.
Proof.
  induction its as [|[[d|] [q|] [p|]] its IH];
    [now exists []|cbn [flat_map for_each]; unfold item_row at 1;
                   cbn [quantity unit_price description getitem bind]..];
    try reflexivity.
  cbn [item_accesses quantity unit_price description present app find negb snd].
  destruct (find _ (flat_map item_accesses its)) as [a|].
  - now rewrite IH.
  - destruct IH as [rows ->]. now eexists.
Qed.

Lemma existsb_find {A : Type} (f : A -> bool) (l : list A) :
  existsb f l = true -> exists x, find f l = Some x.
Proof.
  induction l as [|y l IH]; [discriminate|].
  cbn [existsb find]. destruct (f y); [now exists y|exact IH].
Qed.

Lemma build_story_first_absent (py : platform) (d : InvoiceData) (key : string) :
  first_absent d = Some key -> build_story py d = Raise (KeyError key).
Proof.
  intros H.
  destruct d as [inum idate ddate bname baddr its sub rate tax tot
                   cname caddr cphone cemail terms].
  unfold first_absent, accesses in H.
  cbn [company_name company_address company_phone company_email invoice_number
       invoice_date due_date bill_to_name bill_to_address items subtotal tax_rate
       tax_amount total_amount payment_terms] in H.
  unfold build_story.
  cbn [company_name company_address company_phone company_email invoice_number
       invoice_date due_date bill_to_name bill_to_address items subtotal tax_rate
       tax_amount total_amount payment_terms].
  do 9 read_key H.
  destruct its as [its|]; [cbn [getitem bind]|cbn in H; injection H as <-; reflexivity].
  cbn [present app find negb snd] in H. rewrite find_app in H.
  pose proof (item_rows_first_absent its) as Hrows.
  destruct (find _ (flat_map item_accesses its)) as [a|].
  - rewrite Hrows. cbn [option_map] in H. injection H as <-. reflexivity.
  - destruct Hrows as [rows ->]. cbn [bind].
    do 5 read_key H. discriminate.
Qed.

Lemma story_of_create (py : platform) (d : InvoiceData) (output_filename : string) :
  story_of (create_invoice_pdf py d output_filename) = build_story py d.
Proof. unfold story_of, create_invoice_pdf. now destruct (build_story py d). Qed.

(** C6. When some key the composer reads is absent from the dict, the
    call raises [KeyError] with the first absent key in reading order,
    and returns no document. *)
Theorem first_absent_key_raised (py : platform)
    (d : InvoiceData) (output_filename : string) :
  existsb (fun a => negb (snd a)) (accesses d) = true ->
  exists key,
    first_absent d = Some key
    /\ build_story py d = Raise (KeyError key)
    /\ create_invoice_pdf py d output_filename = Raise (KeyError key).
Proof.
  intros H. apply existsb_find in H as [a Ha].
  exists (fst a). assert (Hk : first_absent d = Some (fst a)).
  { unfold first_absent. now rewrite Ha. }
  split; [exact Hk|]. apply (build_story_first_absent py) in Hk.
  split; [exact Hk|]. unfold create_invoice_pdf. now rewrite Hk.
Qed.

Lemma first_absent_key_raised_witness :
  existsb (fun a => negb (snd a)) (accesses untaxed_dict) = true
  /\ exists key,
      first_absent untaxed_dict = Some key
      /\ build_story glibc_311 untaxed_dict = Raise (KeyError key)
      /\ create_invoice_pdf glibc_311 untaxed_dict "invoice.pdf" = Raise (KeyError key).
Proof.
  split; [reflexivity|].
  apply (first_absent_key_raised glibc_311 untaxed_dict "invoice.pdf").
  reflexivity.
Defined.

Example untaxed_dict_raises :
  build_story glibc_311 untaxed_dict = Raise (KeyError "tax_rate").
Proof. reflexivity. Qed.

(** ** Determinism *)





(** * The prompt sequence: properties *)

(** ** Running a sequence *)

Lemma io_bind_return {A B : Type} (m : io A) (k : A -> io B)
    (w : world) (b : B) (w' : world) :
  io_bind m k w = (Return b, w') ->
  exists a w1, m w = (Return a, w1) /\ k a w1 = (Return b, w').
Proof.
  unfold io_bind. destruct (m w) as [[a|e] w1]; [eauto|discriminate].
Qed.

Lemma io_bind_fail {A B : Type} (m : io A) (k : A -> io B)
    (w : world) (e : error) (w' : world) :
  io_bind m k w = (Fail e, w') ->
  m w = (Fail e, w')
  \/ exists a w1, m w = (Return a, w1) /\ k a w1 = (Fail e, w').
Proof.
  unfold io_bind. destruct (m w) as [[a|e1] w1]; [eauto|].
  intros [= <- <-]. now left.
Qed.

Lemma input_return (prompt : string) (w : world) (line : string) (w' : world) :
  input prompt w = (Return line, w') ->
  stdin w = line :: stdin w' /\ stdout w' = (stdout w ++ [prompt])%list.
Proof.
  unfold input. destruct (stdin w) as [|l rest]; [discriminate|].
  intros [= -> <-]. split; reflexivity.
Qed.

Lemma input_fail (prompt : string) (w : world) (e : error) (w' : world) :
  input prompt w = (Fail e, w') -> e = EOFError /\ stdin w' = [].
Proof.
  unfold input. destruct (stdin w) as [|l rest]; [|discriminate].
  intros [= <- <-]. split; reflexivity.
Qed.

Lemma print_return (text : string) (w : world) (u : unit) (w' : world) :
  print text w = (Return u, w') ->
  stdin w' = stdin w /\ stdout w' = (stdout w ++ [(text ++ PyText.NL)%string])%list.
Proof. unfold print. intros [= _ <-]. split; reflexivity. Qed.

Lemma print_fail (text : string) (w : world) (e : error) (w' : world) :
  print text w = (Fail e, w') -> False.
Proof. discriminate. Qed.

(** ** The address loop *)

Lemma address_loop_reads (prompt : string) (more rest out address : list string) :
  forallb nonempty more = true ->
  address_loop prompt (more ++ "" :: rest) out address
  = (Return (address ++ more)%list,
     {| stdin := rest;
        stdout := (out ++ repeat prompt (S (List.length more)))%list |}).
Proof.
  revert out address. induction more as [|line more IH]; intros out address H.
  - cbn. now rewrite app_nil_r.
  - cbn [forallb] in H. apply andb_prop in H as [Hl H].
    cbn [app address_loop]. unfold nonempty in Hl.
    destruct (String.eqb line ""); [discriminate|].
    rewrite IH by exact H. cbn [List.length repeat].
    now rewrite <- !app_assoc.
Qed.

Lemma address_loop_return (prompt : string) (lines out address : list string)
    (result : list string) (w' : world) :
  address_loop prompt lines out address = (Return result, w') ->
  exists more,
    result = (address ++ more)%list
    /\ lines = (more ++ "" :: stdin w')%list
    /\ forallb nonempty more = true
    /\ stdout w' = (out ++ repeat prompt (S (List.length more)))%list.
Proof.
  revert out address. induction lines as [|line lines IH]; intros out address H.
  - discriminate.
  - cbn [address_loop] in H. destruct (String.eqb_spec line "") as [->|Hl].
    + injection H as <- <-. exists []. now rewrite app_nil_r.
    + apply IH in H as (more & -> & -> & Hm & ->).
      exists (line :: more). rewrite <- !app_assoc. repeat split.
      cbn [forallb]. unfold nonempty at 1.
      destruct (String.eqb_spec line ""); [contradiction|exact Hm].
Qed.

Lemma address_loop_fail (prompt : string) (lines out address : list string)
    (e : error) (w' : world) :
  address_loop prompt lines out address = (Fail e, w') ->
  e = EOFError /\ stdin w' = [].
Proof.
  revert out address. induction lines as [|line lines IH]; intros out address H.
  - injection H as <- <-. split; reflexivity.
  - cbn [address_loop] in H. destruct (String.eqb line ""); [discriminate|].
    now apply IH in H.
Qed.

(** ** The items loop *)

Lemma items_loop_reads (es : list entry) (done : string)
    (rest out : list string) (items : list Item) :
  forallb entry_ok es = true ->
  String.eqb (PyText.lower done) "done" = true ->
  items_loop (flat_map entry_lines es ++ done :: rest) out items
  = (Return (items ++ flat_map entry_items es)%list,
     {| stdin := rest;
        stdout := (out ++ flat_map entry_output es
                   ++ ["Item Description (or 'done'): "])%list |}).
Proof.
  intros Hes Hdone. revert out items Hes.
  induction es as [|e es IH]; intros out items Hes.
  - cbn. rewrite Hdone. now rewrite app_nil_r.
  - cbn [forallb] in Hes. apply andb_prop in Hes as [He Hes].
    specialize (fun out items => IH out items Hes).
    destruct e as [d q p|d q|d q p]; cbn [entry_ok] in He;
      repeat (apply andb_prop in He as [He ?]);
      apply negb_true_iff in He;
      cbn [flat_map entry_lines app items_loop entry_items entry_output];
      rewrite He.
    + unfold entry_items. cbn [entry_kept].
      destruct (PyParse.py_float q); [|discriminate].
      destruct (PyParse.py_float p); [|discriminate].
      rewrite IH. cbn [map item_of_line line_description line_quantity
        line_unit_price]. now rewrite <- !app_assoc.
    + destruct (PyParse.py_float q); [discriminate|].
      rewrite IH. now rewrite <- ?app_assoc, ?app_nil_r.
    + destruct (PyParse.py_float q); [|discriminate].
      destruct (PyParse.py_float p); [discriminate|].
      rewrite IH. now rewrite <- ?app_assoc, ?app_nil_r.
Qed.

Lemma items_loop_return_bounded (n : nat) (lines out : list string)
    (items result : list Item) (w' : world) :
  (List.length lines < n)%nat ->
  items_loop lines out items = (Return result, w') ->
  exists es done,
    lines = (flat_map entry_lines es ++ done :: stdin w')%list
    /\ forallb entry_ok es = true
    /\ String.eqb (PyText.lower done) "done" = true
    /\ result = (items ++ flat_map entry_items es)%list
    /\ stdout w' = (out ++ flat_map entry_output es
                    ++ ["Item Description (or 'done'): "])%list.
Proof.
  revert lines out items. induction n as [|n IH]; intros lines out items Hn H; [lia|].
  destruct lines as [|d lines]; [discriminate|].
  cbn [items_loop] in H.
  destruct (String.eqb (PyText.lower d) "done") eqn:Hd.
  { injection H as <- <-. exists [], d. cbn. now rewrite app_nil_r. }
  destruct lines as [|q lines]; [discriminate|].
  destruct (PyParse.py_float q) as [quantity|] eqn:Hq.
  - destruct lines as [|p lines]; [discriminate|].
    destruct (PyParse.py_float p) as [unit_price|] eqn:Hp.
    + apply IH in H as (es & done & -> & Hes & Hdone & -> & ->);
        [|cbn [List.length] in Hn; lia].
      exists (Entered d q p :: es), done. unfold entry_items at 2.
      cbn [flat_map entry_lines entry_kept entry_output entry_ok forallb app].
      rewrite Hd, Hq, Hp, Hes, Hdone, <- !app_assoc. repeat split.
    + apply IH in H as (es & done & -> & Hes & Hdone & -> & ->);
        [|cbn [List.length] in Hn; lia].
      exists (BadUnitPrice d q p :: es), done.
      cbn [flat_map entry_lines entry_items entry_output entry_ok forallb app].
      rewrite Hd, Hq, Hp, Hes, Hdone, <- !app_assoc. repeat split.
  - apply IH in H as (es & done & -> & Hes & Hdone & -> & ->);
      [|cbn [List.length] in Hn; lia].
    exists (BadQuantity d q :: es), done.
    cbn [flat_map entry_lines entry_items entry_output entry_ok forallb app].
    rewrite Hd, Hq, Hes, Hdone, <- !app_assoc. repeat split.
Qed.

Lemma items_loop_return (lines out : list string)
    (items result : list Item) (w' : world) :
  items_loop lines out items = (Return result, w') ->
  exists es done,
    lines = (flat_map entry_lines es ++ done :: stdin w')%list
    /\ forallb entry_ok es = true
    /\ String.eqb (PyText.lower done) "done" = true
    /\ result = (items ++ flat_map entry_items es)%list
    /\ stdout w' = (out ++ flat_map entry_output es
                    ++ ["Item Description (or 'done'): "])%list.
Proof. apply (items_loop_return_bounded (S (List.length lines))). lia. Qed.

Lemma items_loop_fail_bounded (n : nat) (lines out : list string)
    (items : list Item) (e : error) (w' : world) :
  (List.length lines < n)%nat ->
  items_loop lines out items = (Fail e, w') ->
  e = EOFError /\ stdin w' = [].
Proof.
  revert lines out items. induction n as [|n IH]; intros lines out items Hn H; [lia|].
  destruct lines as [|d lines]; [injection H as <- <-; now split|].
  cbn [items_loop] in H.
  destruct (String.eqb (PyText.lower d) "done"); [discriminate|].
  destruct lines as [|q lines]; [injection H as <- <-; now split|].
  destruct (PyParse.py_float q).
  - destruct lines as [|p lines]; [injection H as <- <-; now split|].
    destruct (PyParse.py_float p); apply IH in H; trivial; cbn [List.length] in Hn; lia.
  - apply IH in H; trivial. cbn [List.length] in Hn. lia.
Qed.

Lemma items_loop_fail (lines out : list string)
    (items : list Item) (e : error) (w' : world) :
  items_loop lines out items = (Fail e, w') -> e = EOFError /\ stdin w' = [].
Proof. apply (items_loop_fail_bounded (S (List.length lines))). lia. Qed.

Lemma entry_items_full (es : list entry) :
  forallb item_full (flat_map entry_items es) = true.
Proof.
  induction es as [|e es IH]; [reflexivity|].
  cbn [flat_map]. rewrite forallb_app, IH, andb_true_r.
  destruct e as [d q p|d q|d q p]; try reflexivity.
  unfold entry_items. cbn [entry_kept].
  now destruct (PyParse.py_float q), (PyParse.py_float p).
Qed.

Lemma entry_items_not_done (es : list entry) :
  forallb entry_ok es = true ->
  forallb not_done (flat_map entry_items es) = true.
Proof.
  induction es as [|e es IH]; [reflexivity|].
  cbn [forallb flat_map]. intros H. apply andb_prop in H as [He Hes].
  rewrite forallb_app, (IH Hes), andb_true_r.
  destruct e as [d q p|d q|d q p]; try reflexivity.
  unfold entry_items. cbn [entry_kept entry_ok] in *.
  repeat (apply andb_prop in He as [He ?]).
  destruct (PyParse.py_float q), (PyParse.py_float p); try reflexivity.
  cbn. now rewrite He.
Qed.

(** ** The tax rate loop *)

Lemma tax_rate_loop_reads (rejected : list string) (line : string) (rate : float)
    (rest out : list string) :
  forallb (fun l => negb (present (PyParse.py_float l))) rejected = true ->
  PyParse.py_float line = Some rate ->
  tax_rate_loop (rejected ++ line :: rest) out
  = (Return rate,
     {| stdin := rest;
        stdout := (out ++ flat_map (fun _ => rejected_rate_output) rejected
                   ++ ["Tax Rate (e.g., 0.05 for 5%): "])%list |}).
Proof.
  intros Hrej Hline. revert out Hrej.
  induction rejected as [|l rejected IH]; intros out Hrej.
  - cbn. now rewrite Hline.
  - cbn [forallb] in Hrej. apply andb_prop in Hrej as [Hl Hrej].
    cbn [app tax_rate_loop flat_map].
    destruct (PyParse.py_float l); [discriminate|].
    rewrite IH by exact Hrej. unfold rejected_rate_output.
    now rewrite <- !app_assoc.
Qed.

Lemma tax_rate_loop_return (lines out : list string) (rate : float) (w' : world) :
  tax_rate_loop lines out = (Return rate, w') ->
  exists rejected line,
    lines = (rejected ++ line :: stdin w')%list
    /\ forallb (fun l => negb (present (PyParse.py_float l))) rejected = true
    /\ PyParse.py_float line = Some rate
    /\ stdout w' = (out ++ flat_map (fun _ => rejected_rate_output) rejected
                    ++ ["Tax Rate (e.g., 0.05 for 5%): "])%list.
Proof.
  revert out. induction lines as [|l lines IH]; intros out H; [discriminate|].
  cbn [tax_rate_loop] in H. destruct (PyParse.py_float l) as [r|] eqn:Hl.
  - injection H as <- <-. exists [], l. now repeat split.
  - apply IH in H as (rejected & line & -> & Hrej & Hline & ->).
    exists (l :: rejected), line. cbn [forallb flat_map app].
    rewrite Hl, Hrej, <- !app_assoc. now repeat split.
Qed.

Lemma tax_rate_loop_fail (lines out : list string) (e : error) (w' : world) :
  tax_rate_loop lines out = (Fail e, w') -> e = EOFError /\ stdin w' = [].
Proof.
  revert out. induction lines as [|l lines IH]; intros out H.
  - injection H as <- <-. now split.
  - cbn [tax_rate_loop] in H. destruct (PyParse.py_float l); [discriminate|].
    now apply IH in H.
Qed.

(** ** get_invoice_data_from_user *)

Lemma io_bind_step {A B : Type} (m : io A) (k : A -> io B)
    (w : world) (a : A) (w1 : world) :
  m w = (Return a, w1) -> io_bind m k w = k a w1.
Proof. unfold io_bind. now intros ->. Qed.

Lemma flat_map_entry_items (es : list entry) :
  flat_map entry_items es = map item_of_line (flat_map entry_kept es).
Proof.
  induction es as [|e es IH]; [reflexivity|].
  cbn [flat_map]. now rewrite map_app, IH.
Qed.

Lemma line_amounts (lines : list Line) :
  Forall2 line_amount (map item_of_line lines) (amounts lines).
Proof.
  induction lines as [|l lines IH]; constructor; [apply line_amount_of_line|exact IH].
Qed.

Lemma calculate_invoice_totals_lines (py : platform) (lines : list Line) (rate : float) :
  calculate_invoice_totals py (map item_of_line lines) rate
  = Ok (py_sum py (amounts lines),
        num_mul (py_sum py (amounts lines)) rate,
        num_add (py_sum py (amounts lines)) (num_mul (py_sum py (amounts lines)) rate)).
Proof.
  unfold calculate_invoice_totals.
  now rewrite (for_each_item_amount _ _ (line_amounts lines)).
Qed.

Lemma read_address_reads (first_prompt next_prompt first : string)
    (more rest out : list string) :
  forallb nonempty more = true ->
  read_address first_prompt next_prompt
    {| stdin := first :: more ++ "" :: rest; stdout := out |}
  = (Return (first :: more),
     {| stdin := rest;
        stdout := (out ++ first_prompt
                   :: repeat next_prompt (S (List.length more)))%list |}).
Proof.
  intros H. unfold read_address.
  erewrite io_bind_step by reflexivity. cbn [stdin stdout].
  rewrite address_loop_reads by exact H. cbn [app]. now rewrite <- app_assoc.
Qed.

Lemma get_invoice_data_reads (py : platform) (s : Session) (rest out : list string) :
  session_ok s = true ->
  get_invoice_data_from_user py {| stdin := session_lines s rest; stdout := out |}
  = (Return (dict_of_invoice (session_invoice py s)),
     {| stdin := rest; stdout := (out ++ session_output s)%list |}).
Proof.
  unfold session_ok. intros H.
  repeat (apply andb_prop in H as [H ?]).
  destruct (PyParse.py_float (typed_tax_rate s)) as [rate|] eqn:Hrate; [|discriminate].
  unfold get_invoice_data_from_user, session_lines.
  do 2 (erewrite io_bind_step by reflexivity).
  erewrite io_bind_step by (apply read_address_reads; assumption).
  do 6 (erewrite io_bind_step by reflexivity).
  erewrite io_bind_step by (apply read_address_reads; assumption).
  erewrite io_bind_step by reflexivity.
  erewrite io_bind_step by (cbn [stdin stdout]; apply items_loop_reads; assumption).
  erewrite io_bind_step
    by (cbn [stdin stdout]; apply (tax_rate_loop_reads _ _ rate); assumption).
  cbn [app]. rewrite flat_map_entry_items, calculate_invoice_totals_lines.
  erewrite io_bind_step by reflexivity. cbv beta iota.
  erewrite io_bind_step by reflexivity.
  unfold ret. f_equal.
  - unfold dict_of_invoice, session_invoice, session_tax_rate. rewrite Hrate.
    reflexivity.
  - f_equal. unfold session_output, rejected_rate_output. cbn [stdout app].
    repeat rewrite <- app_assoc. reflexivity.
Qed.

Lemma read_address_return (first_prompt next_prompt : string)
    (w : world) (address : list string) (w' : world) :
  read_address first_prompt next_prompt w = (Return address, w') ->
  exists first more,
    address = first :: more
    /\ stdin w = (first :: more ++ "" :: stdin w')%list
    /\ forallb nonempty more = true
    /\ stdout w' = (stdout w ++ first_prompt
                    :: repeat next_prompt (S (List.length more)))%list.
Proof.
  unfold read_address. intros H.
  apply io_bind_return in H as (first & w1 & Hin & H).
  apply input_return in Hin as [Hin Hout].
  apply address_loop_return in H as (more & -> & Hl & Hm & ->).
  exists first, more. rewrite Hin, Hl, Hout, <- app_assoc. now repeat split.
Qed.

Lemma read_address_fail (first_prompt next_prompt : string)
    (w : world) (e : error) (w' : world) :
  read_address first_prompt next_prompt w = (Fail e, w') ->
  e = EOFError /\ stdin w' = [].
Proof.
  unfold read_address. intros H.
  apply io_bind_fail in H as [H|(first & w1 & _ & H)].
  - now apply input_fail in H.
  - now apply address_loop_fail in H.
Qed.

Lemma lift_return {A : Type} (r : result A) (w : world) (a : A) (w' : world) :
  lift r w = (Return a, w') -> r = Ok a /\ w' = w.
Proof. unfold lift. destruct r; [|discriminate]. now intros [= -> ->]. Qed.

Lemma lift_fail {A : Type} (r : result A) (w : world) (e : error) (w' : world) :
  lift r w = (Fail e, w') -> exists e', r = Raise e' /\ e = Raised e' /\ w' = w.
Proof. unfold lift. destruct r as [a|e']; [discriminate|]. intros [= <- <-]. eauto. Qed.

Lemma get_invoice_data_return (py : platform) (w : world) (d : InvoiceData) (w' : world) :
  get_invoice_data_from_user py w = (Return d, w') ->
  exists s,
    session_ok s = true
    /\ stdin w = session_lines s (stdin w')
    /\ d = dict_of_invoice (session_invoice py s)
    /\ stdout w' = (stdout w ++ session_output s)%list.
Proof.
  unfold get_invoice_data_from_user. intros H.
  apply io_bind_return in H as ([] & w0 & H0 & H).
  apply print_return in H0 as [I0 O0].
  apply io_bind_return in H as (cname & w1 & H1 & H).
  apply input_return in H1 as [I1 O1].
  apply io_bind_return in H as (caddr & w2 & H2 & H).
  apply read_address_return in H2 as (cfirst & cmore & -> & I2 & C2 & O2).
  apply io_bind_return in H as (cphone & w3 & H3 & H).
  apply input_return in H3 as [I3 O3].
  apply io_bind_return in H as (cemail & w4 & H4 & H).
  apply input_return in H4 as [I4 O4].
  apply io_bind_return in H as (inum & w5 & H5 & H).
  apply input_return in H5 as [I5 O5].
  apply io_bind_return in H as (idate & w6 & H6 & H).
  apply input_return in H6 as [I6 O6].
  apply io_bind_return in H as (ddate & w7 & H7 & H).
  apply input_return in H7 as [I7 O7].
  apply io_bind_return in H as (bname & w8 & H8 & H).
  apply input_return in H8 as [I8 O8].
  apply io_bind_return in H as (baddr & w9 & H9 & H).
  apply read_address_return in H9 as (bfirst & bmore & -> & I9 & C9 & O9).
  apply io_bind_return in H as ([] & w10 & H10 & H).
  apply print_return in H10 as [I10 O10].
  apply io_bind_return in H as (its & w11 & H11 & H).
  apply items_loop_return in H11 as (es & done & I11 & C11 & D11 & -> & O11).
  apply io_bind_return in H as (rate & w12 & H12 & H).
  apply tax_rate_loop_return in H12 as (rejected & line & I12 & C12 & R12 & O12).
  apply io_bind_return in H as ([[sub tax] tot] & w13 & H13 & H).
  apply lift_return in H13 as [T13 ->].
  apply io_bind_return in H as (terms & w14 & H14 & H).
  apply input_return in H14 as [I14 O14].
  injection H as <- <-.
  cbn [app] in T13.
  rewrite flat_map_entry_items, calculate_invoice_totals_lines in T13.
  injection T13 as <- <- <-.
  exists {| typed_company_name := cname;
            typed_company_address := cfirst;
            typed_company_address_more := cmore;
            typed_company_phone := cphone;
            typed_company_email := cemail;
            typed_invoice_number := inum;
            typed_invoice_date := idate;
            typed_due_date := ddate;
            typed_bill_to_name := bname;
            typed_bill_to_address := bfirst;
            typed_bill_to_address_more := bmore;
            typed_entries := es;
            typed_done := done;
            typed_rejected_rates := rejected;
            typed_tax_rate := line;
            typed_payment_terms := terms |}.
  split; [|split; [|split]].
  - unfold session_ok.
    cbn [typed_company_address_more typed_bill_to_address_more typed_entries
         typed_done typed_rejected_rates typed_tax_rate].
    now rewrite C2, C9, C11, D11, C12, R12.
  - unfold session_lines.
    cbn [typed_company_name typed_company_address typed_company_address_more
         typed_company_phone typed_company_email typed_invoice_number
         typed_invoice_date typed_due_date typed_bill_to_name typed_bill_to_address
         typed_bill_to_address_more typed_entries typed_done typed_rejected_rates
         typed_tax_rate typed_payment_terms].
    rewrite <- I14, <- I12, <- I11, I10, <- I9, <- I8, <- I7, <- I6, <- I5,
      <- I4, <- I3, <- I2, <- I1. exact (eq_sym I0).
  - unfold dict_of_invoice, session_invoice, session_tax_rate.
    cbn [typed_company_name typed_company_address typed_company_address_more
         typed_company_phone typed_company_email typed_invoice_number
         typed_invoice_date typed_due_date typed_bill_to_name typed_bill_to_address
         typed_bill_to_address_more typed_entries typed_done typed_rejected_rates
         typed_tax_rate typed_payment_terms].
    rewrite R12, flat_map_entry_items. reflexivity.
  - rewrite O14, O12, O11, O10, O9, O8, O7, O6, O5, O4, O3, O2, O1, O0.
    unfold session_output, rejected_rate_output.
    cbn [typed_company_address_more typed_bill_to_address_more typed_entries
         typed_rejected_rates app].
    repeat rewrite <- app_assoc. reflexivity.
Qed.

Lemma get_invoice_data_fail (py : platform) (w : world) (e : error) (w' : world) :
  get_invoice_data_from_user py w = (Fail e, w') -> e = EOFError /\ stdin w' = [].
Proof.
  unfold get_invoice_data_from_user. intros H.
  apply io_bind_fail in H as [H|([] & w0 & _ & H)]; [discriminate|].
  apply io_bind_fail in H as [H|(? & ? & _ & H)]; [now apply input_fail in H|].
  apply io_bind_fail in H as [H|(? & ? & _ & H)]; [now apply read_address_fail in H|].
  do 6 (apply io_bind_fail in H as [H|(? & ? & _ & H)]; [now apply input_fail in H|]).
  apply io_bind_fail in H as [H|(? & ? & _ & H)]; [now apply read_address_fail in H|].
  apply io_bind_fail in H as [H|([] & ? & _ & H)]; [discriminate|].
  apply io_bind_fail in H as [H|(its & ? & Hits & H)]; [now apply items_loop_fail in H|].
  apply io_bind_fail in H as [H|(rate & ? & _ & H)]; [now apply tax_rate_loop_fail in H|].
  apply items_loop_return in Hits as (es & done & _ & _ & _ & -> & _).
  cbn [app] in H. rewrite flat_map_entry_items, calculate_invoice_totals_lines in H.
  apply io_bind_fail in H as [H|(? & ? & Ht & H)]; [discriminate|].
  apply lift_return in Ht as [[= <-] ->].
  apply io_bind_fail in H as [H|(? & ? & _ & H)]; [now apply input_fail in H|].
  discriminate.
Qed.

(** ** main *)

(** The document [main] builds for a session. *)
Lemma main_return (py : platform) (w : world) (b : Built) (w' : world) :
  main py w = (Return b, w') ->
  exists s,
    session_ok s = true
    /\ stdin w = session_lines s (stdin w')
    /\ b = session_built py s
    /\ stdout w' = (stdout w ++ session_output s
                    ++ [(printed b ++ PyText.NL)%string])%list.
Proof.
  unfold main. intros H.
  apply io_bind_return in H as (d & w1 & Hd & H).
  apply get_invoice_data_return in Hd as (s & Hs & Hin & -> & Hout).
  apply io_bind_return in H as (number & w2 & Hn & H).
  apply lift_return in Hn as [[= <-] ->].
  unfold create_invoice_pdf in H. rewrite build_story_complete in H. cbn [bind] in H.
  apply io_bind_return in H as (b' & w3 & Hb & H).
  apply lift_return in Hb as [[= <-] ->].
  apply io_bind_return in H as ([] & w4 & Hp & H).
  apply print_return in Hp as [Hin4 Hout4].
  injection H as <- <-.
  exists s. rewrite Hin4, Hout4, Hout, <- app_assoc. now repeat split.
Qed.

(** ** What the prompt sequence guarantees *)

Example sample_session_ok : session_ok sample_session = true.
Proof. vm_compute. reflexivity. Qed.

Example sample_session_tables :
  option_map (fun b => (filename b, tables (story b)))
    (match fst (main glibc_311 sample_world) with
     | Return b => Some b
     | Fail _ => None
     end)
  = Some
      ("invoice_INV-001.pdf",
       [ [ [VStr "Invoice #:"; VStr "INV-001"];
           [VStr "Invoice Date:"; VStr "2024-03-15"];
           [VStr "Due Date:"; VStr "2024-04-14"] ];
         [ [VStr "Description"; VStr "Quantity"; VStr "Unit Price"; VStr "Amount"];
           [VStr "Widget"; VStr "2.0"; VStr "$9.99"; VStr "$19.98"];
           [VStr "Service"; VStr "1.0"; VStr "$50.00"; VStr "$50.00"] ];
         [ [VStr "Subtotal:"; VStr "$69.98"];
           [VStr "Tax (8%):"; VStr "$5.60"];
           [VStr "TOTAL DUE:"; VStr "$75.58"] ] ]).
Proof. vm_compute. reflexivity. Qed.

Lemma sample_world_returns :
  get_invoice_data_from_user glibc_311 sample_world
  = (Return (dict_of_invoice (session_invoice glibc_311 sample_session)),
     {| stdin := []; stdout := ([] ++ session_output sample_session)%list |}).
Proof. apply get_invoice_data_reads, sample_session_ok. Qed.

Lemma sample_world_built :
  main glibc_311 sample_world
  = (Return (session_built glibc_311 sample_session),
     {| stdin := [];
        stdout := ([] ++ session_output sample_session
                   ++ [(printed (session_built glibc_311 sample_session) ++ PyText.NL)%string])%list |}).
Proof. vm_compute. reflexivity. Qed.

(** X1. [get_invoice_data_from_user] returns exactly on the inputs that
    begin with a session: it reads the lines of the session and no
    more, writes the prompts and messages of the session, and returns
    the dict that holds what was typed: the texts as they are, the two
    dates as strings, the address lines up to the first empty one, the
    entries whose two numbers [float] accepts, in order, the first tax
    rate [float] accepts, and the totals of those items. *)
Theorem get_invoice_data_sessions (py : platform)
    (w : world) (d : InvoiceData) (w' : world) :
  get_invoice_data_from_user py w = (Return d, w')
  <-> exists s,
        session_ok s = true
        /\ stdin w = session_lines s (stdin w')
        /\ d = dict_of_invoice (session_invoice py s)
        /\ stdout w' = (stdout w ++ session_output s)%list.
Proof.
  split; [apply get_invoice_data_return|].
  intros (s & Hs & Hin & -> & Hout).
  destruct w as [lines out], w' as [rest out']. cbn [stdin stdout] in *.
  subst lines out'. now apply get_invoice_data_reads.
Qed.

(** X2. A run of [get_invoice_data_from_user] that does not return has
    raised [EOFError], with every line of the input read; it raises
    nothing else. *)
Theorem get_invoice_data_end_of_input (py : platform) (w : world) :
  (exists d w', get_invoice_data_from_user py w = (Return d, w'))
  \/ (exists w', get_invoice_data_from_user py w = (Fail EOFError, w') /\ stdin w' = []).
Proof.
  destruct (get_invoice_data_from_user py w) as [[d|e] w'] eqn:H.
  - left. now exists d, w'.
  - right. exists w'. apply get_invoice_data_fail in H as [-> H]. now split.
Qed.

(** X3. The dict [get_invoice_data_from_user] returns holds every key,
    and its subtotal, tax amount and total amount are those
    [calculate_invoice_totals] returns on its items and its tax rate. *)
Theorem get_invoice_data_totals (py : platform)
    (w : world) (d : InvoiceData) (w' : world) :
  get_invoice_data_from_user py w = (Return d, w') ->
  first_absent d = None
  /\ exists its rate sub tax tot,
      items d = Some its /\ tax_rate d = Some rate
      /\ subtotal d = Some sub /\ tax_amount d = Some tax
      /\ total_amount d = Some tot
      /\ calculate_invoice_totals py its rate = Ok (sub, tax, tot).
Proof.
  intros H. apply get_invoice_data_return in H as (s & _ & _ & -> & _). split.
  - destruct (first_absent (dict_of_invoice (session_invoice py s))) as [key|] eqn:Hk;
      [|reflexivity].
    apply (build_story_first_absent py) in Hk. now rewrite build_story_complete in Hk.
  - eexists _, _, _, _, _. do 5 (split; [reflexivity|]).
    apply calculate_invoice_totals_lines.
Qed.

Lemma get_invoice_data_totals_witness :
  get_invoice_data_from_user glibc_311 sample_world
  = (Return (dict_of_invoice (session_invoice glibc_311 sample_session)),
     {| stdin := []; stdout := ([] ++ session_output sample_session)%list |})
  /\ first_absent (dict_of_invoice (session_invoice glibc_311 sample_session)) = None
  /\ exists its rate sub tax tot,
      items (dict_of_invoice (session_invoice glibc_311 sample_session)) = Some its
      /\ tax_rate (dict_of_invoice (session_invoice glibc_311 sample_session)) = Some rate
      /\ subtotal (dict_of_invoice (session_invoice glibc_311 sample_session)) = Some sub
      /\ tax_amount (dict_of_invoice (session_invoice glibc_311 sample_session)) = Some tax
      /\ total_amount (dict_of_invoice (session_invoice glibc_311 sample_session)) = Some tot
      /\ calculate_invoice_totals glibc_311 its rate = Ok (sub, tax, tot).
Proof.
  split; [exact sample_world_returns|].
  exact (get_invoice_data_totals glibc_311 _ _ _ sample_world_returns).
Defined.

(** X4. In the dict [get_invoice_data_from_user] returns, each of the
    two addresses has at least one line, and no line after the first is
    empty (the first may be). *)
Theorem get_invoice_data_addresses (py : platform)
    (w : world) (d : InvoiceData) (w' : world) :
  get_invoice_data_from_user py w = (Return d, w') ->
  exists first more bill_first bill_more,
    company_address d = Some (first :: more)
    /\ forallb nonempty more = true
    /\ bill_to_address d = Some (bill_first :: bill_more)
    /\ forallb nonempty bill_more = true.
Proof.
  intros H. apply get_invoice_data_return in H as (s & Hs & _ & -> & _).
  unfold session_ok in Hs. repeat (apply andb_prop in Hs as [Hs ?]).
  now eexists _, _, _, _.
Qed.

Lemma get_invoice_data_addresses_witness :
  get_invoice_data_from_user glibc_311 sample_world
  = (Return (dict_of_invoice (session_invoice glibc_311 sample_session)),
     {| stdin := []; stdout := ([] ++ session_output sample_session)%list |})
  /\ exists first more bill_first bill_more,
      company_address (dict_of_invoice (session_invoice glibc_311 sample_session))
      = Some (first :: more)
      /\ forallb nonempty more = true
      /\ bill_to_address (dict_of_invoice (session_invoice glibc_311 sample_session))
         = Some (bill_first :: bill_more)
      /\ forallb nonempty bill_more = true.
Proof.
  split; [exact sample_world_returns|].
  exact (get_invoice_data_addresses glibc_311 _ _ _ sample_world_returns).
Defined.

(** X5. Every item of the dict [get_invoice_data_from_user] returns has
    its description, quantity and unit price, and no description is the
    word done in any letter case. *)
Theorem get_invoice_data_items (py : platform)
    (w : world) (d : InvoiceData) (w' : world) :
  get_invoice_data_from_user py w = (Return d, w') ->
  exists its,
    items d = Some its
    /\ forallb item_full its = true
    /\ forallb not_done its = true.
Proof.
  intros H. apply get_invoice_data_return in H as (s & Hs & _ & -> & _).
  unfold session_ok in Hs. repeat (apply andb_prop in Hs as [Hs ?]).
  eexists. split; [reflexivity|].
  cbn [session_invoice inv_items]. rewrite <- flat_map_entry_items.
  split; [apply entry_items_full|now apply entry_items_not_done].
Qed.

Lemma get_invoice_data_items_witness :
  get_invoice_data_from_user glibc_311 sample_world
  = (Return (dict_of_invoice (session_invoice glibc_311 sample_session)),
     {| stdin := []; stdout := ([] ++ session_output sample_session)%list |})
  /\ exists its,
      items (dict_of_invoice (session_invoice glibc_311 sample_session)) = Some its
      /\ forallb item_full its = true
      /\ forallb not_done its = true.
Proof.
  split; [exact sample_world_returns|].
  exact (get_invoice_data_items glibc_311 _ _ _ sample_world_returns).
Defined.

(** X6. A run of [main] that returns has read a session and no more;
    it has built the story of the invoice typed, under the file name
    invoice_<number>.pdf, on letter paper, and has written the prompts
    of the session followed by the line that reports the file. *)
Theorem main_sessions (py : platform) (w : world) (b : Built) (w' : world) :
  main py w = (Return b, w') ->
  exists s,
    session_ok s = true
    /\ stdin w = session_lines s (stdin w')
    /\ b = {| filename := "invoice_" ++ typed_invoice_number s ++ ".pdf";
              pagesize := letter;
              story := composed py (session_invoice py s);
              printed := "Invoice '"
                         ++ ("invoice_" ++ typed_invoice_number s ++ ".pdf")
                         ++ "' generated successfully!" |}
    /\ build_story py (dict_of_invoice (session_invoice py s)) = Ok (story b)
    /\ stdout w' = (stdout w ++ session_output s
                    ++ [(printed b ++ PyText.NL)%string])%list.
Proof.
  intros H. apply main_return in H as (s & Hs & Hin & -> & Hout).
  exists s. repeat split; trivial. apply build_story_complete.
Qed.

Lemma main_sessions_witness :
  main glibc_311 sample_world
  = (Return (session_built glibc_311 sample_session),
     {| stdin := [];
        stdout := ([] ++ session_output sample_session
                   ++ [(printed (session_built glibc_311 sample_session)
                        ++ PyText.NL)%string])%list |})
  /\ exists s,
      session_ok s = true
      /\ stdin sample_world = session_lines s []
      /\ session_built glibc_311 sample_session
         = {| filename := "invoice_" ++ typed_invoice_number s ++ ".pdf";
              pagesize := letter;
              story := composed glibc_311 (session_invoice glibc_311 s);
              printed := "Invoice '"
                         ++ ("invoice_" ++ typed_invoice_number s ++ ".pdf")
                         ++ "' generated successfully!" |}
      /\ build_story glibc_311 (dict_of_invoice (session_invoice glibc_311 s))
         = Ok (story (session_built glibc_311 sample_session))
      /\ ([] ++ session_output sample_session
          ++ [(printed (session_built glibc_311 sample_session) ++ PyText.NL)%string])%list
         = ([] ++ session_output s
            ++ [(printed (session_built glibc_311 sample_session)
                 ++ PyText.NL)%string])%list.
Proof.
  split; [exact sample_world_built|].
  exact (main_sessions glibc_311 _ _ _ sample_world_built).
Defined.

(** X8. [main] checks no date: the details table of the document shows
    the invoice number, the invoice date and the due date as the lines
    typed for them, whatever they are. *)
Theorem main_dates_as_typed (py : platform) (w : world) (b : Built) (w' : world) :
  main py w = (Return b, w') ->
  exists s,
    stdin w = session_lines s (stdin w')
    /\ nth_error (tables (story b)) 0
       = Some [ [VStr "Invoice #:"; VStr (typed_invoice_number s)];
                [VStr "Invoice Date:"; VStr (typed_invoice_date s)];
                [VStr "Due Date:"; VStr (typed_due_date s)] ].
Proof.
  intros H. apply main_return in H as (s & _ & Hin & -> & _).
  exists s. split; [exact Hin|].
  cbn [session_built story]. now rewrite tables_composed.
Qed.

Lemma main_dates_as_typed_witness :
  main glibc_311 sample_world
  = (Return (session_built glibc_311 sample_session),
     {| stdin := [];
        stdout := ([] ++ session_output sample_session
                   ++ [(printed (session_built glibc_311 sample_session) ++ PyText.NL)%string])%list |})
  /\ exists s,
      stdin sample_world = session_lines s []
      /\ nth_error (tables (story (session_built glibc_311 sample_session))) 0
         = Some [ [VStr "Invoice #:"; VStr (typed_invoice_number s)];
                  [VStr "Invoice Date:"; VStr (typed_invoice_date s)];
                  [VStr "Due Date:"; VStr (typed_due_date s)] ].
Proof.
  split; [exact sample_world_built|].
  exact (main_dates_as_typed glibc_311 _ _ _ sample_world_built).
Defined.

(** * More on the composer and the totals *)

(** X9. A call of [create_invoice_pdf] that returns has found in the
    dict every key the composer reads; the document it has built is the
    story of the dict, under the file name given, on letter paper, and
    the line it has printed names the file. *)
Theorem create_invoice_pdf_returned
    (py : platform) (d : InvoiceData) (output_filename : string) (b : Built) :
  create_invoice_pdf py d output_filename = Ok b ->
  first_absent d = None
  /\ build_story py d = Ok (story b)
  /\ filename b = output_filename
  /\ pagesize b = letter
  /\ printed b = "Invoice '" ++ output_filename ++ "' generated successfully!".
Proof.
  unfold create_invoice_pdf. intros H. split.
  - destruct (first_absent d) as [key|] eqn:Hk; [|reflexivity].
    apply (build_story_first_absent py) in Hk. now rewrite Hk in H.
  - destruct (build_story py d) as [s|e]; [|discriminate].
    cbn [bind] in H. injection H as <-. repeat split.
Qed.

Lemma create_invoice_pdf_returned_witness :
  create_invoice_pdf glibc_311 (dict_of_invoice sample_invoice) "invoice.pdf"
  = Ok {| filename := "invoice.pdf";
          pagesize := letter;
          story := composed glibc_311 sample_invoice;
          printed := "Invoice 'invoice.pdf' generated successfully!" |}
  /\ first_absent (dict_of_invoice sample_invoice) = None
  /\ build_story glibc_311 (dict_of_invoice sample_invoice)
     = Ok (composed glibc_311 sample_invoice)
  /\ "invoice.pdf" = "invoice.pdf"
  /\ letter = letter
  /\ "Invoice 'invoice.pdf' generated successfully!"
     = "Invoice '" ++ "invoice.pdf" ++ "' generated successfully!".
Proof.
  assert (H : create_invoice_pdf glibc_311 (dict_of_invoice sample_invoice) "invoice.pdf"
              = Ok {| filename := "invoice.pdf";
                      pagesize := letter;
                      story := composed glibc_311 sample_invoice;
                      printed := "Invoice 'invoice.pdf' generated successfully!" |}).
  { unfold create_invoice_pdf. now rewrite build_story_complete. }
  split; [exact H|].
  exact (create_invoice_pdf_returned glibc_311 _ _ _ H).
Defined.

Lemma for_each_item_amount_first_absent (items : list Item) :
  match find (fun a => negb (snd a)) (totals_accesses items) with
  | Some a => for_each item_amount items = Raise (KeyError (fst a))
  | None => exists amounts, for_each item_amount items = Ok amounts
  end.
Proof.
  unfold totals_accesses.
  induction items as [|[d [q|] [p|]] items IH];
    [now exists []|cbn [flat_map for_each]; unfold item_amount at 1;
                   cbn [quantity unit_price getitem bind present app find negb snd]..];
    try reflexivity.
  match goal with |- context [find ?f ?l] => destruct (find f l) as [a|] end.
  - now rewrite IH.
  - destruct IH as [amounts ->]. now eexists.
Qed.

Lemma for_each_without_description (items : list Item) :
  for_each item_amount (map without_description items) = for_each item_amount items.
Proof.
  induction items as [|item items IH]; [reflexivity|].
  cbn [map for_each]. now rewrite IH.
Qed.

(** X10. [calculate_invoice_totals] reads the quantity, then the unit
    price, of each item in turn and raises [KeyError] on the first that
    is absent; with none absent it returns.  It never reads a
    description: the result is the same without them. *)
Theorem calculate_invoice_totals_keys (py : platform) (items : list Item) (rate : float) :
  match find (fun a => negb (snd a)) (totals_accesses items) with
  | Some a => calculate_invoice_totals py items rate = Raise (KeyError (fst a))
  | None => exists totals, calculate_invoice_totals py items rate = Ok totals
  end
  /\ calculate_invoice_totals py (map without_description items) rate
     = calculate_invoice_totals py items rate.
Proof.
  unfold calculate_invoice_totals. split.
  - pose proof (for_each_item_amount_first_absent items) as H.
    destruct (find _ (totals_accesses items)) as [a|].
    + now rewrite H.
    + destruct H as [amounts ->]. now eexists.
  - now rewrite for_each_without_description.
Qed.

Lemma rectangular_address_lines (lines : list string) :
  forallb rectangular (address_lines lines) = true.
Proof. induction lines as [|l lines IH]; [reflexivity|exact IH]. Qed.

Lemma line_rows_four (lines : list Line) :
  forallb (fun row => Nat.eqb (List.length row) 4) (map line_row lines) = true.
Proof. induction lines as [|l lines IH]; [reflexivity|exact IH]. Qed.

(** X11. In the story of a complete invoice every table is
    rectangular: each row has as many cells as the table has column
    widths, whatever the number of items. *)
Theorem tables_rectangular (py : platform) (inv : Invoice) :
  exists story,
    build_story py (dict_of_invoice inv) = Ok story
    /\ forallb rectangular story = true.
Proof.
  exists (composed py inv). split; [apply build_story_complete|].
  unfold composed. cbn [forallb rectangular].
  rewrite !forallb_app, !rectangular_address_lines.
  cbn [forallb rectangular details_data items_data totals_data List.length Nat.eqb
       items_header andb].
  now rewrite line_rows_four.
Qed.

Lemma float_eq_refl_finite (x : float) :
  PyFloat.is_finite x = true -> float_eq x x = true.
Proof.
  destruct x as [s| | |s m e]; try discriminate; intros _; [reflexivity|].
  unfold float_eq, SFeqb, SFcompare.
  rewrite Z.compare_refl, Pos.compare_cont_refl. now destruct s.
Qed.

Lemma add_zero_r_eq (x : float) (s : bool) :
  PyFloat.is_finite x = true ->
  float_eq (PyFloat.add x (S754_zero s)) x = true.
Proof.
  destruct x as [[]| | |sx m e]; try discriminate; intros _.
  - now destruct s.
  - now destruct s.
  - change (PyFloat.add (S754_finite sx m e) (S754_zero s)) with (S754_finite sx m e).
    now apply float_eq_refl_finite.
Qed.

Lemma mul_zero_r (x : float) (s : bool) :
  PyFloat.is_finite x = true ->
  exists s', PyFloat.mul x (S754_zero s) = S754_zero s'.
Proof. destruct x; try discriminate; intros _; now eexists. Qed.

(** X12. With a tax rate of zero and a finite subtotal,
    [calculate_invoice_totals] returns a tax amount of zero and a total
    amount equal to the subtotal. *)
Theorem zero_tax_rate (py : platform)
    (items : list Item) (amounts : list float) (s : bool) :
  Forall2 line_amount items amounts ->
  exists subtotal tax_amount total_amount,
    calculate_invoice_totals py items (S754_zero s)
    = Ok (subtotal, tax_amount, total_amount)
    /\ (PyFloat.is_finite (to_float subtotal) = true ->
        PyFloat.is_zero tax_amount = true
        /\ float_eq total_amount (to_float subtotal) = true).
Proof.
  intros H. unfold calculate_invoice_totals.
  rewrite (for_each_item_amount _ _ H). cbn [bind].
  eexists _, _, _. split; [reflexivity|]. intros Hf.
  unfold num_mul, num_add.
  destruct (mul_zero_r _ s Hf) as [s' ->]. split; [reflexivity|].
  now apply add_zero_r_eq.
Qed.

Lemma zero_tax_rate_witness :
  Forall2 line_amount (map item_of_line [widget; service]) (amounts [widget; service])
  /\ exists subtotal tax_amount total_amount,
      calculate_invoice_totals glibc_311 (map item_of_line [widget; service]) (S754_zero false)
      = Ok (subtotal, tax_amount, total_amount)
      /\ (PyFloat.is_finite (to_float subtotal) = true ->
          PyFloat.is_zero tax_amount = true
          /\ float_eq total_amount (to_float subtotal) = true).
Proof.
  split; [apply line_amounts|].
  exact (zero_tax_rate glibc_311 _ _ false (line_amounts [widget; service])).
Defined.

Lemma all_digits_append (s1 s2 : string) :
  all_digits (s1 ++ s2) = all_digits s1 && all_digits s2.
Proof.
  induction s1 as [|c s1 IH]; [reflexivity|].
  cbn [append all_digits]. now rewrite IH, andb_assoc.
Qed.

Lemma all_digits_uint (d : Decimal.uint) :
  all_digits (NilEmpty.string_of_uint d) = true.
Proof. induction d; [reflexivity|exact IHd..]. Qed.

Lemma all_digits_dec (n : Z) : all_digits (PyStr.dec n) = true /\ PyStr.dec n <> "".
Proof.
  unfold PyStr.dec, NilZero.string_of_uint.
  destruct (N.to_uint (Z.to_N n)) as [|d|d|d|d|d|d|d|d|d|d];
    (split; [|discriminate]); try reflexivity;
    apply (all_digits_uint (_ d)).
Qed.

Lemma all_digits_repeat0 (n : nat) : all_digits (PyStr.repeat0 n) = true.
Proof. induction n as [|n IH]; [reflexivity|exact IH]. Qed.

Lemma all_digits_zfill (w : nat) (n : Z) :
  all_digits (PyStr.zfill w (PyStr.dec n)) = true.
Proof.
  unfold PyStr.zfill. rewrite all_digits_append, all_digits_repeat0.
  apply all_digits_dec.
Qed.

(** X13. A finite amount is shown as currency in one shape: the dollar
    sign, a minus sign when the float is negative, one digit or more, a
    point, and exactly two digits. *)
Theorem currency_two_decimals (s : bool) (m : positive) (e : Z) :
  exists whole cents,
    currency (S754_finite s m e)
    = "$" ++ PyStr.sign_text s ++ whole ++ "." ++ cents
    /\ whole <> ""
    /\ all_digits whole = true
    /\ String.length cents = 2%nat
    /\ all_digits cents = true.
Proof.
  exists (PyStr.dec (PyStr.scaled 2 m e / 100)),
    (PyStr.zfill 2 (PyStr.dec (PyStr.scaled 2 m e mod 100))).
  split; [reflexivity|].
  split; [apply all_digits_dec|]. split; [apply all_digits_dec|].
  split; [|apply all_digits_zfill].
  apply zfill_month_day. apply Z.mod_pos_bound. lia.
Qed.

(** X14. The items of an invoice reach the story through the items
    table alone: with other items, the blocks before and after that
    table, its column widths and its style are the same. *)
Theorem items_change_items_table_only (py : platform)
    (inv : Invoice) (lines : list Line) :
  exists before after widths cmds,
    build_story py (dict_of_invoice inv)
    = Ok (before ++ Table (items_header :: map line_row (inv_items inv)) widths cmds
          :: after)%list
    /\ build_story py (dict_of_invoice (with_items inv lines))
       = Ok (before ++ Table (items_header :: map line_row lines) widths cmds
             :: after)%list.
Proof.
  exists
    (Paragraph (inv_company_name inv) h1
     :: address_lines (inv_company_address inv)
     ++ [ Paragraph ("Phone: " ++ inv_company_phone inv) Normal;
          Paragraph ("Email: " ++ inv_company_email inv) Normal;
          Spacer 1 (inches 2 1);
          Paragraph "INVOICE" h2;
          Spacer 1 (inches 1 1);
          Table (details_data py inv) [inches 2 0; inches 3 0] invoice_details_style;
          Spacer 1 (inches 2 1);
          Paragraph "BILL TO:" h3;
          Paragraph (inv_bill_to_name inv) Normal ]
     ++ address_lines (inv_bill_to_address inv)
     ++ [ Spacer 1 (inches 2 1) ])%list,
    [ Spacer 1 (inches 2 1);
      Table (totals_data inv) [inches 55 1; inches 2 0] totals_style;
      Spacer 1 (inches 2 1);
      Paragraph "Payment Terms:" h3;
      Paragraph (inv_payment_terms inv) Normal;
      Spacer 1 (inches 5 1);
      Paragraph "Thank you for your business!" h3 ],
    [inches 3 0; inches 1 0; inches 15 1; inches 15 1], items_style.
  rewrite !build_story_complete. unfold composed, items_data.
  split; apply f_equal; rewrite <- ?app_assoc;
    cbn [app with_items inv_invoice_number inv_invoice_date inv_due_date
         inv_bill_to_name inv_bill_to_address inv_items inv_subtotal inv_tax_rate
         inv_tax_amount inv_total_amount inv_company_name inv_company_address
         inv_company_phone inv_company_email inv_payment_terms details_data
         totals_data];
    repeat (progress (cbn [app]; rewrite <- ?app_assoc)); reflexivity.
Qed.

Lemma currency_not_finite (x : float) :
  PyFloat.is_finite x = false -> shows_not_finite (VStr (currency x)) = true.
Proof. destruct x as [|[]| |]; try discriminate; intros _; reflexivity. Qed.

(** X15. Nothing stops a number that is not finite on its way to the
    page: when some quantity or unit price of the items is infinite or
    NaN, the totals [calculate_invoice_totals] returns show in the
    totals table as $nan, $inf or $-inf. *)
Theorem not_finite_totals_shown (py : platform)
    (lines : list Line) (rate : float) (inv : Invoice) :
  existsb item_not_finite (map item_of_line lines) = true ->
  calculate_invoice_totals py (map item_of_line lines) rate
  = Ok (inv_subtotal inv, inv_tax_amount inv, inv_total_amount inv) ->
  exists story data subtotal_text tax_text total_text,
    build_story py (dict_of_invoice inv) = Ok story
    /\ nth_error (tables story) 2 = Some data
    /\ cell data 0 1 = Some subtotal_text
    /\ cell data 1 1 = Some tax_text
    /\ cell data 2 1 = Some total_text
    /\ shows_not_finite subtotal_text = true
    /\ shows_not_finite tax_text = true
    /\ shows_not_finite total_text = true.
Proof.
  intros Hnf H. rewrite calculate_invoice_totals_lines in H.
  injection H as Hs Ht Hu.
  assert (Fs : PyFloat.is_finite (to_float (inv_subtotal inv)) = false).
  { rewrite <- Hs. apply py_sum_not_finite.
    apply (amounts_not_finite _ _ (line_amounts lines) Hnf). }
  assert (Ft : PyFloat.is_finite (inv_tax_amount inv) = false).
  { rewrite <- Ht, Hs. now apply mul_not_finite_l. }
  assert (Fu : PyFloat.is_finite (inv_total_amount inv) = false).
  { rewrite <- Hu, Hs. now apply add_not_finite_l. }
  exists (composed py inv), (totals_data inv).
  eexists _, _, _. split; [apply build_story_complete|].
  split; [now rewrite tables_composed|].
  do 3 (split; [reflexivity|]).
  split; [|split]; now apply currency_not_finite.
Qed.

Lemma not_finite_totals_shown_witness :
  existsb item_not_finite (map item_of_line [nan_line]) = true
  /\ calculate_invoice_totals glibc_311 (map item_of_line [nan_line]) (PyFloat.lit 8 2)
     = Ok (inv_subtotal nan_invoice, inv_tax_amount nan_invoice,
           inv_total_amount nan_invoice)
  /\ exists story data subtotal_text tax_text total_text,
      build_story glibc_311 (dict_of_invoice nan_invoice) = Ok story
      /\ nth_error (tables story) 2 = Some data
      /\ cell data 0 1 = Some subtotal_text
      /\ cell data 1 1 = Some tax_text
      /\ cell data 2 1 = Some total_text
      /\ shows_not_finite subtotal_text = true
      /\ shows_not_finite tax_text = true
      /\ shows_not_finite total_text = true.
Proof.
  split; [reflexivity|]. split; [reflexivity|].
  apply (not_finite_totals_shown glibc_311 [nan_line] (PyFloat.lit 8 2) nan_invoice);
    reflexivity.
Defined.

Lemma for_each_item_amount_ok (items : list Item) (amounts : list float) :
  for_each item_amount items = Ok amounts -> Forall2 line_amount items amounts.
Proof.
  revert amounts. induction items as [|[d [q|] [p|]] items IH]; intros amounts H.
  - injection H as <-. constructor.
  - cbn [for_each] in H. unfold item_amount at 1 in H.
    cbn [quantity unit_price getitem bind] in H.
    destruct (for_each item_amount items) as [rest|]; [|discriminate].
    injection H as <-. constructor; [|now apply IH].
    now exists q, p.
  - discriminate.
  - discriminate.
  - discriminate.
Qed.

(** X16. Where [sum] adds plainly, adding an item at the end of the
    list adds its amount to the subtotal: the totals of the longer list
    are those of the subtotal of the shorter one plus quantity *
    unit_price of the new item.  (Where [sum] compensates this fails:
    see [compensated_append].) *)
Theorem totals_append_item (py : platform)
    (items : list Item) (item : Item) (a rate : float)
    (subtotal : num) (tax_amount total_amount : float) :
  compensated_sum py = false ->
  calculate_invoice_totals py items rate = Ok (subtotal, tax_amount, total_amount) ->
  line_amount item a ->
  calculate_invoice_totals py (items ++ [item]) rate
  = Ok (PyFloat (num_add subtotal a),
        num_mul (PyFloat (num_add subtotal a)) rate,
        num_add (PyFloat (num_add subtotal a))
          (num_mul (PyFloat (num_add subtotal a)) rate)).
Proof.
  unfold calculate_invoice_totals. intros Hc H Ha.
  destruct (for_each item_amount items) as [amounts|] eqn:Hitems; [|discriminate].
  cbn [bind] in H. injection H as <- _ _.
  apply for_each_item_amount_ok in Hitems.
  assert (Happ : Forall2 line_amount (items ++ [item]) (amounts ++ [a])).
  { apply Forall2_app; [exact Hitems|]. now constructor. }
  rewrite (for_each_item_amount _ _ Happ). cbn [bind].
  unfold py_sum. rewrite Hc. unfold plain_sum. now rewrite fold_sum_snoc.
Qed.

Lemma totals_append_item_witness :
  compensated_sum glibc_311 = false
  /\ calculate_invoice_totals glibc_311 (map item_of_line [widget]) (PyFloat.lit 8 2)
  = Ok (py_sum glibc_311 (amounts [widget]),
        num_mul (py_sum glibc_311 (amounts [widget])) (PyFloat.lit 8 2),
        num_add (py_sum glibc_311 (amounts [widget]))
          (num_mul (py_sum glibc_311 (amounts [widget])) (PyFloat.lit 8 2)))
  /\ line_amount (item_of_line service)
       (PyFloat.mul (line_quantity service) (line_unit_price service))
  /\ calculate_invoice_totals glibc_311 (map item_of_line [widget] ++ [item_of_line service])
       (PyFloat.lit 8 2)
     = Ok (PyFloat (num_add (py_sum glibc_311 (amounts [widget]))
                      (PyFloat.mul (line_quantity service) (line_unit_price service))),
           num_mul
             (PyFloat (num_add (py_sum glibc_311 (amounts [widget]))
                         (PyFloat.mul (line_quantity service) (line_unit_price service))))
             (PyFloat.lit 8 2),
           num_add
             (PyFloat (num_add (py_sum glibc_311 (amounts [widget]))
                         (PyFloat.mul (line_quantity service) (line_unit_price service))))
             (num_mul
                (PyFloat (num_add (py_sum glibc_311 (amounts [widget]))
                            (PyFloat.mul (line_quantity service)
                               (line_unit_price service))))
                (PyFloat.lit 8 2))).
Proof.
  split; [reflexivity|].
  split; [apply calculate_invoice_totals_lines|].
  split; [apply line_amount_of_line|].
  apply (totals_append_item glibc_311 _ _ _ _ _ _ _ eq_refl
           (calculate_invoice_totals_lines glibc_311 [widget] (PyFloat.lit 8 2))
           (line_amount_of_line service)).
Defined.
